(** * pline.easy: the option resolver and the get-or-create pipeline builder

    A shallow embedding of [pline/easy.py] (classes [PipelineOptions] and
    [EasyPipeline]) together with the properties of its specification.

    Python objects are mutable and shared.  The embedding keeps that visible:
    - [os.environ] is a finite map that the module only ever reads;
    - a [PipelineOptions] instance is a record holding its private dict;
    - pipeline records live in an object store addressed by location, and the
      registry of a pipeline is a list of locations, so that "the same
      object" means "the same location";
    - a method is a function from the receiver's state to an outcome and the
      state it leaves behind; a raised exception keeps the mutations made
      before it was raised. *)

From Stdlib Require Import ZArith Ascii String List Lia.
From stdpp Require Import base option list gmap strings fin_maps.

Local Open Scope string_scope.

(** ** Exceptions and outcomes *)

Inductive exn :=
| KeyError (key : string)
| ValueError (msg : string)
| IndexError
| NotImplementedError
| KindMismatchError (id : string)
| DuplicateIdError (id : string)
| Unmodelled.
(* [Unmodelled]: the input leaves the fragment of Python that is embedded
   here (only [str.format] replacement fields with a conversion, a format
   specification, attribute or index access, or nested braces). *)

Inductive result (A : Type) :=
| Ok (a : A)
| Raise (e : exn).
Arguments Ok {A} a.
Arguments Raise {A} e.

(** [os.environ] *)
Abbreviation environ := (gmap string string).

(** ** Python string helpers used by the module *)

Module Py.

(** [sub in s] for strings. *)
Definition contains (sub s : string) : Prop :=
  exists pre post, s = pre ++ sub ++ post.

Definition is_digit (c : ascii) : bool :=
  let n := nat_of_ascii c in (48 <=? n)%nat && (n <=? 57)%nat.

(** [PY_SSIZE_T_MAX] of a 64-bit build. *)
Definition PY_SSIZE_T_MAX : Z := 2 ^ 63 - 1.

(** What [get_integer] of the interpreter makes of a field name: it reads
    the characters from the left, gives up at the first one that is not a
    digit (the name is then a keyword), and refuses a run of digits that
    does not fit [Py_ssize_t], also when a character that is not a digit
    comes after it. *)
Inductive field_index :=
| NotANumber
| Number (n : Z)
| TooManyDigits.

Fixpoint get_integer_from (acc : Z) (s : string) : field_index :=
  match s with
  | EmptyString => Number acc
  | String c r =>
      if is_digit c then
        if (PY_SSIZE_T_MAX <? 10 * acc + 10)%Z then TooManyDigits
        else get_integer_from (10 * acc + (Z.of_nat (nat_of_ascii c) - 48)) r
      else NotANumber
  end.

Definition get_integer (s : string) : field_index :=
  match s with
  | EmptyString => NotANumber
  | _ => get_integer_from 0 s
  end.

(** Automatic ([{}]) versus manual ([{0}]) numbering of positional
    replacement fields; Python refuses to mix them. *)
Inductive numbering :=
| NUnset
| NAuto (next : nat)
| NManual.

Inductive mode :=
| Text                      (* outside a replacement field *)
| SawOpen                   (* just read a single open brace *)
| SawClose                  (* just read a single close brace *)
| Field (name : string).    (* inside a replacement field *)

Fixpoint assoc (k : string) (kw : list (string * string)) : option string :=
  match kw with
  | [] => None
  | (k', v) :: r => if String.eqb k k' then Some v else assoc k r
  end.

(** The value a replacement field named [fname] stands for, and the
    numbering state after it. *)
Definition field_value (fname : string) (num : numbering)
    (args : list string) (kwargs : list (string * string))
  : result (string * numbering) :=
  match fname with
  | EmptyString =>
      match num with
      | NManual =>
          Raise (ValueError
            "cannot switch from manual field specification to automatic field numbering")
      | NUnset =>
          match nth_error args 0 with
          | Some v => Ok (v, NAuto 1)
          | None => Raise IndexError
          end
      | NAuto n =>
          match nth_error args n with
          | Some v => Ok (v, NAuto (S n))
          | None => Raise IndexError
          end
      end
  | _ =>
      match get_integer fname with
      | TooManyDigits =>
          Raise (ValueError "Too many decimal digits in format string")
      | Number n =>
          match num with
          | NAuto _ =>
              Raise (ValueError
                "cannot switch from automatic field numbering to manual field specification")
          | _ =>
              if (n <? Z.of_nat (length args))%Z then
                match nth_error args (Z.to_nat n) with
                | Some v => Ok (v, NManual)
                | None => Raise IndexError
                end
              else Raise IndexError
          end
      | NotANumber =>
          match assoc fname kwargs with
          | Some v => Ok (v, num)
          | None => Raise (KeyError fname)
          end
      end
  end.

Definition emit (c : ascii) (r : result string) : result string :=
  match r with
  | Ok s => Ok (String c s)
  | Raise e => Raise e
  end.

Definition emit_str (v : string) (r : result string) : result string :=
  match r with
  | Ok s => Ok (v ++ s)
  | Raise e => Raise e
  end.

(** Characters that start a conversion, a format specification, an
    attribute or an index inside a replacement field. *)
Definition field_special (c : ascii) : bool :=
  (Ascii.eqb c "!" || Ascii.eqb c ":" || Ascii.eqb c "." || Ascii.eqb c "["
   || Ascii.eqb c "]" || Ascii.eqb c "{")%char.

(** [str.format], read left to right.  Doubled braces are literal braces,
    [{name}] is looked up in the keyword arguments, [{}] and [{3}] in the
    positional ones.  The values are [str], formatted as themselves. *)
Fixpoint format_from (m : mode) (num : numbering) (tmpl : string)
    (args : list string) (kwargs : list (string * string)) : result string :=
  match tmpl with
  | EmptyString =>
      match m with
      | Text => Ok ""
      | SawOpen => Raise (ValueError "Single '{' encountered in format string")
      | SawClose => Raise (ValueError "Single '}' encountered in format string")
      | Field _ => Raise (ValueError "unmatched '{' in format")
      end
  | String c rest =>
      let close_field fname :=
        match field_value fname num args kwargs with
        | Ok (v, num') => emit_str v (format_from Text num' rest args kwargs)
        | Raise e => Raise e
        end in
      match m with
      | Text =>
          if Ascii.eqb c "{" then format_from SawOpen num rest args kwargs
          else if Ascii.eqb c "}" then format_from SawClose num rest args kwargs
          else emit c (format_from Text num rest args kwargs)
      | SawOpen =>
          if Ascii.eqb c "{" then emit "{" (format_from Text num rest args kwargs)
          else if Ascii.eqb c "}" then close_field ""
          else if field_special c then Raise Unmodelled
          else format_from (Field (String c "")) num rest args kwargs
      | SawClose =>
          if Ascii.eqb c "}" then emit "}" (format_from Text num rest args kwargs)
          else Raise (ValueError "Single '}' encountered in format string")
      | Field fname =>
          if Ascii.eqb c "}" then close_field fname
          else if field_special c then Raise Unmodelled
          else format_from (Field (fname ++ String c "")) num rest args kwargs
      end
  end.

Definition format (tmpl : string) (args : list string)
    (kwargs : list (string * string)) : result string :=
  format_from Text NUnset tmpl args kwargs.

(** [repr] of a [str] (Python 2): single quotes unless the string holds a
    single quote and no double quote; backslash, the chosen quote, tab,
    newline and carriage return are escaped, other characters outside
    the printable ASCII range are written [\xNN]. *)
Fixpoint has_char (c : ascii) (s : string) : bool :=
  match s with
  | EmptyString => false
  | String d r => Ascii.eqb c d || has_char c r
  end.

Definition hex_digit (n : nat) : ascii :=
  if (n <? 10)%nat then ascii_of_nat (48 + n) else ascii_of_nat (87 + n).

Definition repr_char (quote c : ascii) : string :=
  let n := nat_of_ascii c in
  if Ascii.eqb c quote || Ascii.eqb c "\" then String "\" (String c "")
  else if (n =? 9)%nat then "\t"
  else if (n =? 10)%nat then "\n"
  else if (n =? 13)%nat then "\r"
  else if (n <? 32)%nat || (127 <=? n)%nat then
    String "\" (String "x" (String (hex_digit (n / 16)) (String (hex_digit (n mod 16)) "")))
  else String c "".

Fixpoint repr_body (quote : ascii) (s : string) : string :=
  match s with
  | EmptyString => ""
  | String c r => repr_char quote c ++ repr_body quote r
  end.

Definition dquote : ascii := ascii_of_nat 34.

Definition repr_str (s : string) : string :=
  let quote : ascii :=
    if has_char "'" s && negb (has_char dquote s) then dquote else "'"%char in
  String quote (repr_body quote s ++ String quote "").

Fixpoint join (sep : string) (l : list string) : string :=
  match l with
  | [] => ""
  | [x] => x
  | x :: r => x ++ sep ++ join sep r
  end.

(** [repr] of a list of [str]. *)
Definition repr_list (l : list string) : string :=
  "[" ++ join ", " (map repr_str l) ++ "]".

End Py.

(** ** class PipelineOptions(collections.MutableMapping) *)

Module PipelineOptions.

Record t := Build {
  _env_prefix : string;
  _items : gmap string string
}.

(** [dict.setdefault(k, v)], for its effect on the dict. *)
Definition setdefault (k v : string) (d : gmap string string)
  : gmap string string :=
  match d !! k with
  | Some _ => d
  | None => <[k:=v]> d
  end.

(** [dict.update(other)]: the entries of [other] win. *)
Definition update (other d : gmap string string) : gmap string string :=
  other ∪ d.

(** [os.environ.get('%s%s' % (self._env_prefix, key), default)];
    [None] is Python's [None]. *)
Definition _getenv (env : environ) (self : t) (key : string)
    (default : option string) : option string :=
  match env !! (_env_prefix self ++ key) with
  | Some v => Some v
  | None => default
  end.

(** A [str] is true when it is not empty, a dict when it has an entry;
    [None] is false. *)
Definition str_truthy (s : option string) : bool :=
  match s with
  | Some (String _ _) => true
  | _ => false
  end.

Definition dict_truthy (d : option (gmap string string)) : bool :=
  match d with
  | Some m => negb (bool_decide (m = ∅))
  | None => false
  end.

Definition __init__ (env : environ)
    (options defaults : option (gmap string string))
    (env_prefix : option string) : t :=
  let prefix :=
    if str_truthy env_prefix then default "" env_prefix ++ "_" else "" in
  let self := {| _env_prefix := prefix; _items := ∅ |} in
  let items1 :=
    if dict_truthy options then update (default ∅ options) (_items self)
    else _items self in
  let items2 :=
    if dict_truthy defaults then
      map_fold
        (fun k v items =>
           match _getenv env self k (Some v) with
           | Some x => setdefault k x items
           | None => items   (* a default is given: not reached *)
           end)
        items1 (default ∅ defaults)
    else items1 in
  {| _env_prefix := prefix; _items := items2 |}.

Definition __setitem__ (self : t) (key value : string) : t :=
  {| _env_prefix := _env_prefix self; _items := <[key:=value]> (_items self) |}.

Definition __getitem__ (env : environ) (self : t) (key : string)
  : result string :=
  match _items self !! key with
  | Some v => Ok v
  | None =>
      match _getenv env self key None with
      | None => Raise (KeyError key)
      | Some val => Ok val
      end
  end.

(** The three operations the class refuses.  Each returns the outcome and
    the instance as the call leaves it. *)
Definition __iter__ (self : t) : result (list string) * t :=
  (Raise NotImplementedError, self).

Definition __delitem__ (self : t) (key : string) : result unit * t :=
  (Raise NotImplementedError, self).

Definition __len__ (self : t) : result nat * t :=
  (Raise NotImplementedError, self).

(** Mixin methods inherited from [collections.Mapping], which are written
    in terms of [__getitem__]: [key in self] and [self.get(key)]. *)
Definition __contains__ (env : environ) (self : t) (key : string) : bool :=
  match __getitem__ env self key with
  | Ok _ => true
  | Raise _ => false   (* [__getitem__] raises nothing but KeyError *)
  end.

Definition get (env : environ) (self : t) (key : string) : option string :=
  match __getitem__ env self key with
  | Ok v => Some v
  | Raise _ => None
  end.

End PipelineOptions.

(** ** Pipeline records and the object store *)

(** The constants of [pline.keywords] that the module uses. *)
Inductive keyword :=
| scheduleType_ondemand
| scheduleType_cron
| failureAndRerunMode_CASCADE
| actionOnTaskFailure_terminate
| actionOnResourceFailure_retryAll.

(** The record classes the accessors instantiate. *)
Inductive cls :=
| DataPipelineObject      (* base.DataPipelineObject: the Default record *)
| Schedule                (* base.Schedule *)
| Ec2Resource             (* resources.Ec2Resource *)
| ShellCommandActivity    (* activities.ShellCommandActivity *)
| SnsAlarm.               (* actions.SnsAlarm *)

#[global] Instance cls_eq_dec : EqDecision cls.
Proof. solve_decision. Defined.

Abbreviation loc := nat.

Inductive value :=
| VStr (s : string)
| VInt (n : Z)
| VKeyword (k : keyword)
| VRef (l : loc).         (* a reference to another record *)

Record object := Object {
  obj_cls : cls;
  obj_id : string;
  obj_attrs : gmap string value
}.

(** Modelled from the spec: the record constructors [cls(id=id, **kwargs)]
    of pline.base, pline.activities, pline.resources and pline.actions, which
    are not in easy.py.  Section 6: each accepts an id plus arbitrary named
    fields; the fields given become the record's fields. *)
Definition new_object (c : cls) (id : string) (kwargs : list (string * value))
  : object :=
  {| obj_cls := c; obj_id := id; obj_attrs := list_to_map kwargs |}.

(** ** class EasyPipeline(pipeline.Pipeline) *)

Module EasyPipeline.

Definition REQUIRED_OPTIONS : list string :=
  ["LOG_URI"; "PIPELINE_ROLE"; "PIPELINE_RESOURCE_ROLE"; "EC2_AMI";
   "EC2_KEYPAIR"; "EC2_SUBNET"; "EC2_SECURITY_GROUP"].

(** The instance, the [PipelineOptions] instance it shares with its
    caller, and the object store its records live in. *)
Record t := Build {
  name : string;
  unique_id : string;
  description : option string;
  region_name : string;
  options : PipelineOptions.t;
  heap : list object;          (* the records allocated so far *)
  collection : list loc        (* self.objects.collection *)
}.

Definition with_options (o : PipelineOptions.t) (self : t) : t :=
  {| name := name self; unique_id := unique_id self;
     description := description self; region_name := region_name self;
     options := o; heap := heap self; collection := collection self |}.

Definition with_heap (h : list object) (self : t) : t :=
  {| name := name self; unique_id := unique_id self;
     description := description self; region_name := region_name self;
     options := options self; heap := h; collection := collection self |}.

Definition with_collection (c : list loc) (self : t) : t :=
  {| name := name self; unique_id := unique_id self;
     description := description self; region_name := region_name self;
     options := options self; heap := heap self; collection := c |}.

(** A method body: it reads and updates the instance, and either returns
    or raises.  What was mutated before an exception stays mutated. *)
Definition M (A : Type) : Type := t -> result A * t.

Definition ret {A} (a : A) : M A := fun self => (Ok a, self).

Definition bind {A B} (c : M A) (k : A -> M B) : M B :=
  fun self =>
    match c self with
    | (Ok a, self') => k a self'
    | (Raise e, self') => (Raise e, self')
    end.

Notation "x <~ c ;; k" := (bind c (fun x => k))
  (at level 100, c at next level, right associativity).

Definition lift {A} (r : result A) : M A := fun self => (r, self).

(** [self.options[key]] *)
Definition option_value (env : environ) (key : string) : M string :=
  fun self => (PipelineOptions.__getitem__ env (options self) key, self).

(** [o.id == id] for the record at [l]. *)
Definition has_id (h : list object) (id : string) (l : loc) : bool :=
  match h !! l with
  | Some o => bool_decide (obj_id o = id)
  | None => false
  end.

(** The first record of the collection whose id is [id], whatever its
    class; [None] when there is none. *)
Definition _get_object (self : t) (id : string) : option loc :=
  find (has_id (heap self) id) (collection self).

(** Modelled from the spec: [Pipeline.add] of pline.pipeline, which is not
    in easy.py.  Section 6: the registry exposes add(record) with an
    id+kind uniqueness check; section 3: the registry is an ordered
    collection in which an id is unique; section 7: a kind mismatch on an
    id that is already bound is an error of the registry. *)
Definition bound_record (self : t) (id : string) : option object :=
  match _get_object self id with
  | Some l => heap self !! l
  | None => None
  end.

Definition add (l : loc) : M unit :=
  fun self =>
    match heap self !! l with
    | Some o =>
        match bound_record self (obj_id o) with
        | Some o' =>
            if bool_decide (obj_cls o' = obj_cls o)
            then (Raise (DuplicateIdError (obj_id o)), self)
            else (Raise (KindMismatchError (obj_id o)), self)
        | None => (Ok tt, with_collection (collection self ++ [l]) self)
        end
    | None =>   (* no record at [l]: nothing to compare with *)
        (Ok tt, with_collection (collection self ++ [l]) self)
    end.

(** Allocation of a fresh record by a constructor call. *)
Definition alloc (o : object) : M loc :=
  fun self => (Ok (length (heap self)), with_heap (heap self ++ [o]) self).

Definition set_field (attr : string) (v : value) (o : object) : object :=
  {| obj_cls := obj_cls o; obj_id := obj_id o;
     obj_attrs := <[attr:=v]> (obj_attrs o) |}.

(** [obj.attr = v] on the record at [l]. *)
Definition set_attr (l : loc) (attr : string) (v : value) : M unit :=
  fun self => (Ok tt, with_heap (alter (set_field attr v) l (heap self)) self).

Definition _ensure_object (id : string) (c : cls)
    (kwargs : list (string * value)) : M loc :=
  fun self =>
    match _get_object self id with
    | Some obj => (Ok obj, self)
    | None =>
        (obj <~ alloc (new_object c id kwargs) ;;
         _ <~ add obj ;;
         ret obj) self
    end.

Definition get_defaults (env : environ) : M loc :=
  log_uri <~ option_value env "LOG_URI" ;;
  role <~ option_value env "PIPELINE_ROLE" ;;
  resource_role <~ option_value env "PIPELINE_RESOURCE_ROLE" ;;
  _ensure_object "Default" DataPipelineObject
    [("name", VStr "Default");
     ("scheduleType", VKeyword scheduleType_ondemand);
     ("failureAndRerunMode", VKeyword failureAndRerunMode_CASCADE);
     ("pipelineLogUri", VStr log_uri);
     ("role", VStr role);
     ("resourceRole", VStr resource_role)].

Definition get_shell_command_activity (id : string) : M loc :=
  _ensure_object id ShellCommandActivity
    [("name", VStr id); ("maximumRetries", VInt 0)].

Definition get_schedule (env : environ) (id : string) : M loc :=
  schedule <~ _ensure_object id Schedule [("name", VStr id)] ;;
  defaults <~ get_defaults env ;;
  _ <~ set_attr defaults "scheduleType" (VKeyword scheduleType_cron) ;;
  _ <~ set_attr defaults "schedule" (VRef schedule) ;;
  ret schedule.

(** The default of the [id] parameter of [get_schedule]. *)
Definition get_schedule_default_id : string := "DefaultSchedule".

Definition get_ec2_resource (env : environ) (id : string) : M loc :=
  image_id <~ option_value env "EC2_AMI" ;;
  key_pair <~ option_value env "EC2_KEYPAIR" ;;
  subnet_id <~ option_value env "EC2_SUBNET" ;;
  security_group <~ option_value env "EC2_SECURITY_GROUP" ;;
  _ensure_object id Ec2Resource
    [("name", VStr id);
     ("actionOnTaskFailure", VKeyword actionOnTaskFailure_terminate);
     ("actionOnResourceFailure", VKeyword actionOnResourceFailure_retryAll);
     ("maximumRetries", VInt 1);
     ("terminateAfter", VStr "1 hours");
     ("imageId", VStr image_id);
     ("keyPair", VStr key_pair);
     ("subnetId", VStr subnet_id);
     ("securityGroupIds", VStr security_group)].

Definition get_sns_alarm (env : environ) (id : string) : M loc :=
  role <~ option_value env "PIPELINE_ROLE" ;;
  _ensure_object id SnsAlarm [("name", VStr id); ("role", VStr role)].

Definition nl : string := String (ascii_of_nat 10) EmptyString.

Definition date_fmt : string := "#{format(node.@scheduledStartTime,'YYYY-MM-dd')}".

Definition msg_body_template : string :=
  "Pipeline: {name}" ++ nl ++
  "Status: #{{node.@status}}" ++ nl ++
  "Scheduled Time: #{{node.@scheduledStartTime}}" ++ nl ++
  nl ++
  "Pipeline dashboard:" ++ nl ++
  "https://console.aws.amazon.com/datapipeline/home?region={region}#ExecutionDetailsPlace:pipelineId=#{{@pipelineId}}&show=latest" ++ nl ++
  "        ".

Definition get_sns_failure_handler (env : environ) (id : string) : M loc :=
  fun self =>
    (msg_body <~ lift (Py.format msg_body_template []
                         [("name", name self); ("region", region_name self)]) ;;
     role <~ option_value env "PIPELINE_ROLE" ;;
     subject <~ lift (Py.format "{} FAILED on {}" [name self; date_fmt] []) ;;
     _ensure_object id SnsAlarm
       [("name", VStr id);
        ("role", VStr role);
        ("subject", VStr subject);
        ("message", VStr msg_body)]) self.

(** Modelled from the spec: [Pipeline.__init__] of pline.pipeline, which is
    not in easy.py.  Section 4.2: it takes a name, a unique identifier, an
    optional description and a region code; section 3: the registry
    starts without records.  The store [h0] holds whatever records the
    program allocated before. *)
Definition Pipeline__init__ (h0 : list object) (name unique_id : string)
    (desc : option string) (region : string) (options : PipelineOptions.t) : t :=
  {| name := name; unique_id := unique_id; description := desc;
     region_name := region; options := options; heap := h0;
     collection := [] |}.

Definition default_region : string := "us-west-2".

(** [[o for o in self.REQUIRED_OPTIONS if o not in self.options]] *)
Definition missing_opts (env : environ) (opts : PipelineOptions.t) : list string :=
  List.filter (fun o => negb (PipelineOptions.__contains__ env opts o))
              REQUIRED_OPTIONS.

(** [if 'LOG_URI' not in self.options and 'LOG_URI_TEMPLATE' in self.options:
      self.options['LOG_URI'] = self.options['LOG_URI_TEMPLATE'].format(...)] *)
Definition synthesize_log_uri (env : environ) (name region : string) : M unit :=
  fun self =>
    if negb (PipelineOptions.__contains__ env (options self) "LOG_URI")
       && PipelineOptions.__contains__ env (options self) "LOG_URI_TEMPLATE"
    then
      (template <~ option_value env "LOG_URI_TEMPLATE" ;;
       log_uri <~ lift (Py.format template []
                          [("region", region); ("pipeline_name", name)]) ;;
       fun self =>
         (Ok tt,
          with_options
            (PipelineOptions.__setitem__ (options self) "LOG_URI" log_uri)
            self)) self
    else (Ok tt, self).

(** [if missing_opts: raise ValueError(...)] *)
Definition check_required (env : environ) : M unit :=
  fun self =>
    match missing_opts env (options self) with
    | [] => (Ok tt, self)
    | missing =>
        (Raise (ValueError
           ("The following required options are not set: "
              ++ Py.repr_list missing)), self)
    end.

(** The body of [__init__] after the call of the base class
    initialiser and [self.options = options]. *)
Definition init_body (env : environ) (name region : string) : M unit :=
  _ <~ synthesize_log_uri env name region ;;
  _ <~ check_required env ;;
  _ <~ get_defaults env ;;
  ret tt.

Definition __init__ (env : environ) (h0 : list object)
    (name unique_id : string) (options : PipelineOptions.t)
    (desc : option string) (region : string) : result unit * t :=
  init_body env name region
    (Pipeline__init__ h0 name unique_id desc region options).

End EasyPipeline.

(** ** Notions the properties are stated with *)

(** The name of the environment variable that backs [key], in the words of
    the specification: the prefix followed by an underscore and the key when
    the prefix is not empty, the bare key otherwise. *)
Definition env_var_name (env_prefix : option string) (key : string) : string :=
  match env_prefix with
  | Some (String c p) => String c p ++ "_" ++ key
  | _ => key
  end.

(** A template in the words of the specification: literal text without
    braces, and the two placeholders. *)
Inductive piece :=
| Lit (s : string)
| RegionPlaceholder
| PipelineNamePlaceholder.

Definition brace_free (s : string) : bool :=
  negb (Py.has_char "{" s) && negb (Py.has_char "}" s).

Definition piece_ok (p : piece) : bool :=
  match p with
  | Lit s => brace_free s
  | _ => true
  end.

(** The text of a template. *)
Fixpoint render (ps : list piece) : string :=
  match ps with
  | [] => ""
  | Lit s :: r => s ++ render r
  | RegionPlaceholder :: r => "{region}" ++ render r
  | PipelineNamePlaceholder :: r => "{pipeline_name}" ++ render r
  end.

(** The template with the region and the pipeline name substituted for
    their placeholders. *)
Fixpoint substitute (region pipeline_name : string) (ps : list piece) : string :=
  match ps with
  | [] => ""
  | Lit s :: r => s ++ substitute region pipeline_name r
  | RegionPlaceholder :: r => region ++ substitute region pipeline_name r
  | PipelineNamePlaceholder :: r =>
      pipeline_name ++ substitute region pipeline_name r
  end.

(** The state after the record [o] was allocated and registered. *)
Definition registered (o : object) (p : EasyPipeline.t) : EasyPipeline.t :=
  EasyPipeline.with_collection
    (EasyPipeline.collection p ++ [length (EasyPipeline.heap p)])
    (EasyPipeline.with_heap (EasyPipeline.heap p ++ [o]) p).

(** The state [get_schedule] leaves: the Default record [d] of [p] with its
    two schedule fields set. *)
Definition scheduled (d l : loc) (p : EasyPipeline.t) : EasyPipeline.t :=
  (EasyPipeline.set_attr d "schedule" (VRef l)
     (EasyPipeline.set_attr d "scheduleType" (VKeyword scheduleType_cron) p).2).2.

(** Every reference of the registry points at an allocated record. *)
Definition store_ok (p : EasyPipeline.t) : Prop :=
  Forall (fun l => l < length (EasyPipeline.heap p)) (EasyPipeline.collection p).

(** [key in self.options] *)
Definition resolves (env : environ) (p : EasyPipeline.t) (key : string) : Prop :=
  PipelineOptions.__contains__ env (EasyPipeline.options p) key = true.

(** The state of a pipeline after a successful construction, as far as the
    accessors depend on it: the required options resolve and the registry
    is consistent with the store. *)
Definition configured (env : environ) (p : EasyPipeline.t) : Prop :=
  store_ok p /\ Forall (resolves env p) EasyPipeline.REQUIRED_OPTIONS.

(** The records of the registry whose id is [id]. *)
Definition records_with_id (p : EasyPipeline.t) (id : string) : list loc :=
  List.filter (EasyPipeline.has_id (EasyPipeline.heap p) id)
              (EasyPipeline.collection p).

(** The field [attr] of the record at [l]. *)
Definition attr_of (p : EasyPipeline.t) (l : loc) (attr : string) : option value :=
  match EasyPipeline.heap p !! l with
  | Some o => obj_attrs o !! attr
  | None => None
  end.

(** The class of the record at [l]. *)
Definition cls_of (p : EasyPipeline.t) (l : loc) : option cls :=
  match EasyPipeline.heap p !! l with
  | Some o => Some (obj_cls o)
  | None => None
  end.

(** The records that exist stay as they are and stay registered, in their
    order. *)
Definition keeps_records (p p' : EasyPipeline.t) : Prop :=
  (forall l o, EasyPipeline.heap p !! l = Some o -> EasyPipeline.heap p' !! l = Some o)
  /\ EasyPipeline.collection p `prefix_of` EasyPipeline.collection p'.

(** Each accessor other than [get_schedule] either stops before it touches
    the registry or is one call of [EasyPipeline._ensure_object]. *)
Definition at_most_ensure (id : string) (c : cls) (r : result loc * EasyPipeline.t) (p : EasyPipeline.t) : Prop :=
  r.2 = p \/ exists kwargs, r = EasyPipeline._ensure_object id c kwargs p.

(** The invariant: a consistent registry with one record of id Default. *)
Definition one_default (p : EasyPipeline.t) : Prop :=
  store_ok p /\ length (records_with_id p "Default") = 1.

(** Everything of the instance but its records. *)
Definition same_settings (p p' : EasyPipeline.t) : Prop :=
  EasyPipeline.options p' = EasyPipeline.options p
  /\ EasyPipeline.name p' = EasyPipeline.name p
  /\ EasyPipeline.unique_id p' = EasyPipeline.unique_id p
  /\ EasyPipeline.description p' = EasyPipeline.description p
  /\ EasyPipeline.region_name p' = EasyPipeline.region_name p.

(** Every id is bound to at most one record of the registry. *)
Definition ids_unique (p : EasyPipeline.t) : Prop :=
  store_ok p /\ forall id, length (records_with_id p id) <= 1.

(** Two calls of a get-or-create accessor [call] for the id [id], from the
    state [p]: both return the record [l]; after the first call [id] is
    bound to [l], which is a record of that id; a record that [id] was
    bound to is the one returned and the call changes nothing at all; a
    record is appended only when [id] was unbound; and the second call
    changes nothing. *)
Definition same_record_twice (call : EasyPipeline.M loc) (id : string)
    (p : EasyPipeline.t) : Prop :=
  exists l p1,
    call p = (Ok l, p1)
    /\ call p1 = (Ok l, p1)
    /\ EasyPipeline._get_object p1 id = Some l
    /\ (exists o, EasyPipeline.heap p1 !! l = Some o /\ obj_id o = id)
    /\ (forall l0, EasyPipeline._get_object p id = Some l0 -> l = l0 /\ p1 = p)
    /\ (EasyPipeline._get_object p id = None ->
        l = length (EasyPipeline.heap p)
        /\ EasyPipeline.collection p1 = (EasyPipeline.collection p ++ [l])%list)
    /\ (ids_unique p -> records_with_id p1 id = [l]).

(** The record at [x] is in [p'] what it is in [p], but for the two
    schedule fields when [x] is [d]. *)
Definition same_but_schedule_fields (d : loc) (p p' : EasyPipeline.t) : Prop :=
  EasyPipeline.collection p' = EasyPipeline.collection p
  /\ same_settings p p'
  /\ (forall x, cls_of p' x = cls_of p x)
  /\ (forall x, x <> d -> EasyPipeline.heap p' !! x = EasyPipeline.heap p !! x)
  /\ (forall a, a <> "scheduleType" -> a <> "schedule" ->
                attr_of p' d a = attr_of p d a).


(** ** A concrete configuration, for the examples *)

Definition demo_items : gmap string string :=
  list_to_map
    [("LOG_URI_TEMPLATE", "{region}-{pipeline_name}");
     ("PIPELINE_ROLE", "role");
     ("PIPELINE_RESOURCE_ROLE", "resource-role");
     ("EC2_AMI", "ami-1");
     ("EC2_KEYPAIR", "keys")].

(** Two of the required options come from the environment; none is given
    for LOG_URI, only the template. *)
Definition demo_environ : environ :=
  list_to_map
    [("PIPELINE_EC2_SUBNET", "subnet-1");
     ("PIPELINE_EC2_SECURITY_GROUP", "sg-1")].

Definition demo_options : PipelineOptions.t :=
  PipelineOptions.__init__ demo_environ (Some demo_items) None (Some "PIPELINE").

(** The outcome of the construction and the pipeline it leaves. *)
Definition demo_init : result unit * EasyPipeline.t :=
  EasyPipeline.__init__ demo_environ [] "demo" "demo-1" demo_options None "us-east-1".

Definition demo_pipeline : EasyPipeline.t := demo_init.2.

(** The demo pipeline after a ShellCommand activity was declared under the
    id A. *)
Definition demo_with_activity : EasyPipeline.t :=
  (EasyPipeline.get_shell_command_activity "A" demo_pipeline).2.

(** ** def main(setup_func, argv=None, env_prefix='PIPELINE') *)

Module Main.

(** [s.split(sep, 1)]: the text before the first separator and, when there
    is a separator, the text after it. *)
Fixpoint partition1 (sep : ascii) (s : string) : string * option string :=
  match s with
  | EmptyString => (EmptyString, None)
  | String c r =>
      if Ascii.eqb c sep then (EmptyString, Some r)
      else let (h, t) := partition1 sep r in (String c h, t)
  end.

Definition split1 (sep : ascii) (s : string) : list string :=
  match partition1 sep s with
  | (h, Some t) => [h; t]
  | (h, None) => [h]
  end.

(** What [envopt.envopt] hands back for the command line, as far as [main]
    reads it before it submits: [--name], [--unique-id], [--description],
    [--aws-region], the [--option] values and, for the [--config] files in
    their order, the dictionaries [yaml.load] returns. *)
Record args := Args {
  arg_name : string;
  arg_unique_id : option string;
  arg_description : option string;
  arg_aws_region : string;
  arg_option : list string;
  arg_config : list (gmap string string)
}.

Definition option_error_template : string :=
  "Incorrectly formatted option '{}'.  Use KEY=VALUE format".

(** The loop over [args['--option']], from the dictionary built so far. *)
Fixpoint parse_options (opts : list string) (options : gmap string string)
  : result (gmap string string) :=
  match opts with
  | [] => Ok options
  | opt :: rest =>
      match split1 "=" opt with
      | [key; value] => parse_options rest (<[key:=value]> options)
      | _ =>
          match Py.format option_error_template [opt] [] with
          | Ok msg => Raise (ValueError msg)
          | Raise e => Raise e
          end
      end
  end.

(** The loop over [args['--config']]: [defaults.update(cfg)] for each
    file. *)
Definition merge_configs (cfgs : list (gmap string string))
  : gmap string string :=
  fold_left (fun defaults cfg => PipelineOptions.update cfg defaults) cfgs ∅.

(** [x or y] on an optional [str]. *)
Definition str_or (x : option string) (y : string) : string :=
  if PipelineOptions.str_truthy x then default EmptyString x else y.

(** The resolver [main] builds: [PipelineOptions(options, defaults,
    env_prefix)]. *)
Definition build_options (env : environ) (a : args) (env_prefix : string)
  : result PipelineOptions.t :=
  match parse_options (arg_option a) ∅ with
  | Ok options =>
      Ok (PipelineOptions.__init__ env (Some options)
            (Some (merge_configs (arg_config a))) (Some env_prefix))
  | Raise e => Raise e
  end.

(** [main] up to and including the call of [setup_func]; what follows (the
    preview of the payload, or connect, create and activate) belongs to the
    client library.  [stamp] is the current time as the format
    [%Y%m%d%H%M%S] writes it, [h0] the records allocated before.  The result
    is the pipeline as [setup_func] leaves it. *)
Definition prepare (env : environ) (h0 : list object) (a : args)
    (stamp : string) (env_prefix : string)
    (setup_func : EasyPipeline.t -> result unit * EasyPipeline.t)
  : result EasyPipeline.t :=
  let name := arg_name a in
  let unique_id := str_or (arg_unique_id a) (name ++ "-" ++ stamp) in
  let description := str_or (arg_description a) EmptyString in
  let region := arg_aws_region a in
  match build_options env a env_prefix with
  | Raise e => Raise e
  | Ok pline_options =>
      match EasyPipeline.__init__ env h0 name unique_id pline_options
              (Some description) region with
      | (Raise e, _) => Raise e
      | (Ok _, pline_obj) =>
          match setup_func pline_obj with
          | (Raise e, _) => Raise e
          | (Ok _, pline_obj') => Ok pline_obj'
          end
      end
  end.

End Main.

(** The command line of the demo: the name, two options and one config
    file; everything else is left to its default. *)
Definition demo_args : Main.args :=
  {| Main.arg_name := "demo";
     Main.arg_unique_id := None;
     Main.arg_description := None;
     Main.arg_aws_region := "us-east-1";
     Main.arg_option := ["PIPELINE_ROLE=role"; "EC2_AMI=ami-1"];
     Main.arg_config :=
       [list_to_map
          [("LOG_URI_TEMPLATE", "{region}-{pipeline_name}");
           ("PIPELINE_RESOURCE_ROLE", "resource-role");
           ("EC2_KEYPAIR", "keys")]] |}.

(** The set-up function of the docstring of [main]. *)
Definition hello_world_setup : EasyPipeline.t -> result unit * EasyPipeline.t :=
  EasyPipeline.bind (EasyPipeline.get_shell_command_activity "HelloWorldActivity")
    (fun activity =>
       EasyPipeline.set_attr activity "command" (VStr "echo hello world")).

(** A pipeline whose PIPELINE_ROLE comes from the environment only: it is
    built while the variable is set. *)
Definition role_environ : environ :=
  <["PIPELINE_PIPELINE_ROLE" := "role"]> demo_environ.

Definition env_role_pipeline : EasyPipeline.t :=
  (EasyPipeline.__init__ role_environ [] "demo" "demo-1"
     (PipelineOptions.__init__ role_environ
        (Some (delete "PIPELINE_ROLE" demo_items)) None (Some "PIPELINE"))
     None "us-east-1").2.

(** ** Further notions *)

(** An option written on the command line. *)
Definition render_option (kv : string * string) : string :=
  kv.1 ++ "=" ++ kv.2.

(** The first of [keys] that the resolver of [p] does not resolve. *)
Definition first_unresolved (env : environ) (p : EasyPipeline.t)
    (keys : list string) : option string :=
  find (fun k => negb (PipelineOptions.__contains__ env (EasyPipeline.options p) k))
       keys.

(** A replacement field name that [str.format] looks up among the keyword
    arguments as it is: not empty, not read as a number, and without a
    character that ends the name. *)
Fixpoint plain_chars (s : string) : bool :=
  match s with
  | EmptyString => true
  | String c r =>
      negb (Ascii.eqb c "}") && negb (Py.field_special c) && plain_chars r
  end.

Definition plain_name (s : string) : bool :=
  match s with
  | EmptyString => false
  | _ =>
      plain_chars s
      && match Py.get_integer s with Py.NotANumber => true | _ => false end
  end.

Import EasyPipeline.

(** * Properties *)

(** ** Sanity checks of the string helpers *)

Example format_example :
  Py.format "{region}-{pipeline_name}" []
            [("region", "us-east-1"); ("pipeline_name", "demo")]
  = Ok "us-east-1-demo".
Proof. reflexivity. Qed.

Example format_braces :
  Py.format "#{{node.@status}} {}" ["x"] [] = Ok "#{node.@status} x".
Proof. reflexivity. Qed.

Example repr_list_example :
  Py.repr_list ["LOG_URI"; "EC2_AMI"] = "['LOG_URI', 'EC2_AMI']".
Proof. reflexivity. Qed.

Example options_seed_env :
  PipelineOptions.get {[ "P_X" := "from_env" ]}
    (PipelineOptions.__init__ {[ "P_X" := "from_env" ]} None
       (Some {[ "X" := "fallback" ]}) (Some "P")) "X" = Some "from_env".
Proof. vm_compute. reflexivity. Qed.

Example options_seed_literal :
  PipelineOptions.get ∅
    (PipelineOptions.__init__ ∅ None (Some {[ "X" := "fallback" ]}) (Some "P")) "X"
  = Some "fallback".
Proof. vm_compute. reflexivity. Qed.

(** ** Strings *)

Lemma string_app_cons (x : ascii) (a b : string) :
  String x a ++ b = String x (a ++ b).
Proof. reflexivity. Qed.

Lemma string_app_assoc (a b c : string) : (a ++ b) ++ c = a ++ (b ++ c).
Proof.
  induction a as [|x a IH]; [reflexivity|].
  rewrite !string_app_cons. f_equal. exact IH.
Qed.

Lemma string_app_nil_r (a : string) : a ++ "" = a.
Proof.
  induction a as [|x a IH]; [reflexivity|].
  rewrite string_app_cons. f_equal. exact IH.
Qed.

(** ** The option resolver *)

Lemma setdefault_lookup (i y k : string) (d : gmap string string) :
  PipelineOptions.setdefault i y d !! k
  = match d !! k with
    | Some z => Some z
    | None => if decide (i = k) then Some y else None
    end.
Proof.
  unfold PipelineOptions.setdefault. destruct (decide (i = k)) as [->|Hne].
  - destruct (d !! k) eqn:Hk; [by rewrite Hk|]. by rewrite lookup_insert_eq.
  - destruct (d !! i); [by destruct (d !! k)|].
    rewrite lookup_insert_ne by done. by destruct (d !! k).
Qed.

Lemma seed_fold_lookup (env : environ) (self : PipelineOptions.t) (d items : gmap string string) (k : string) :
  map_fold
    (fun k v items =>
       match PipelineOptions._getenv env self k (Some v) with
       | Some x => PipelineOptions.setdefault k x items
       | None => items
       end) items d !! k
  = match items !! k with
    | Some x => Some x
    | None =>
        match d !! k with
        | Some v => Some (default v (env !! (PipelineOptions._env_prefix self ++ k)))
        | None => None
        end
    end.
Proof.
  revert k.
  apply (map_fold_weak_ind (fun r (m : gmap string string) => forall k, r !! k =
     match items !! k with
    | Some x => Some x
    | None =>
        match m !! k with
        | Some v => Some (default v (env !! (PipelineOptions._env_prefix self ++ k)))
        | None => None
        end
    end)).
  - intros k. rewrite lookup_empty. by destruct (items !! k).
  - intros i x m r Hi IH k.
    assert (Hg : PipelineOptions._getenv env self i (Some x)
                 = Some (default x (env !! (PipelineOptions._env_prefix self ++ i)))).
    { unfold PipelineOptions._getenv. by destruct (env !! (PipelineOptions._env_prefix self ++ i)). }
    rewrite Hg, setdefault_lookup, IH.
    destruct (decide (i = k)) as [->|Hne].
    + rewrite lookup_insert_eq, Hi. by destruct (items !! k).
    + rewrite lookup_insert_ne by done.
      destruct (items !! k); [done|]. by destruct (m !! k).
Qed.

Lemma init_items_lookup (env : environ) options defaults env_prefix (k : string) :
  PipelineOptions._items (PipelineOptions.__init__ env options defaults env_prefix) !! k
  = match default ∅ options !! k with
    | Some x => Some x
    | None =>
        match default ∅ defaults !! k with
        | Some v =>
            Some (default v
                    (env !! (PipelineOptions._env_prefix (PipelineOptions.__init__ env options defaults env_prefix) ++ k)))
        | None => None
        end
    end.
Proof.
  unfold PipelineOptions.__init__; simpl.
  set (prefix := if PipelineOptions.str_truthy env_prefix then _ else _).
  assert (H1 : (if PipelineOptions.dict_truthy options then PipelineOptions.update (default ∅ options) ∅ else ∅)
               = default ∅ options).
  { destruct options as [o|]; simpl; [|done].
    unfold PipelineOptions.update. case_bool_decide; simpl; [done|]. apply (right_id_L ∅ (∪)). }
  rewrite H1.
  destruct (PipelineOptions.dict_truthy defaults) eqn:Hd.
  - by rewrite seed_fold_lookup.
  - assert (default ∅ defaults = ∅) as ->.
    { destruct defaults as [d|]; simpl in *; [|done].
      case_bool_decide; [done|discriminate]. }
    rewrite lookup_empty. by destruct (default ∅ options !! k).
Qed.

Lemma init_env_prefix (env : environ) options defaults env_prefix (key : string) :
  PipelineOptions._env_prefix (PipelineOptions.__init__ env options defaults env_prefix)
    ++ key
  = env_var_name env_prefix key.
Proof.
  unfold PipelineOptions.__init__, env_var_name; simpl.
  destruct env_prefix as [[|c p]|]; simpl; try reflexivity.
  apply string_app_assoc.
Qed.

Lemma getitem_explicit (env : environ) (self : PipelineOptions.t) (key v : string) :
  PipelineOptions._items self !! key = Some v ->
  PipelineOptions.__getitem__ env self key = Ok v.
Proof. intros H. unfold PipelineOptions.__getitem__. by rewrite H. Qed.

(** C4.  A key of the defaults table that the explicit options table does
    not have is seeded, at construction, with the environment variable of
    the prefixed name when that variable is set and with the literal default
    otherwise.  The seeded value is stored in the explicit table, so reading
    the key gives it under the environment of the construction and under any
    later environment. *)
Theorem defaults_seeding
    (env : environ) (options : option (gmap string string))
    (defaults : gmap string string) (env_prefix : option string)
    (k v : string) :
  defaults !! k = Some v ->
  default ∅ options !! k = None ->
  let self := PipelineOptions.__init__ env options (Some defaults) env_prefix in
  let seeded := default v (env !! env_var_name env_prefix k) in
  PipelineOptions.__getitem__ env self k = Ok seeded
  /\ PipelineOptions._items self !! k = Some seeded
  /\ forall env' : environ, PipelineOptions.__getitem__ env' self k = Ok seeded.
Proof.
  intros Hd Ho self seeded.
  assert (Hitems : PipelineOptions._items self !! k = Some seeded).
  { subst self seeded. rewrite init_items_lookup, Ho.
    change (default ∅ (Some defaults)) with defaults.
    by rewrite Hd, init_env_prefix. }
  split; [|split]; [|exact Hitems|intros env']; by apply getitem_explicit.
Qed.

Lemma defaults_seeding_witness :
  PipelineOptions.__getitem__ ∅
    (PipelineOptions.__init__ {[ "P_X" := "from_env" ]} None
       (Some {[ "X" := "fallback" ]}) (Some "P")) "X" = Ok "from_env".
Proof.
  refine (proj2 (proj2 (defaults_seeding {[ "P_X" := "from_env" ]} None
                          {[ "X" := "fallback" ]} (Some "P") "X" "fallback" _ _)) ∅);
    vm_compute; reflexivity.
Defined.

(** C5.  Reading a key consults the explicit table first, then the
    environment variable whose name is the prefix, an underscore and the key
    (the bare key when the prefix is empty), and raises KeyError when neither
    has a value.  Hence a key written after construction reads back as
    written, whatever the environment holds. *)
Theorem lookup_order
    (env : environ) (options defaults : option (gmap string string))
    (env_prefix : option string) (later : list (string * string))
    (key : string) :
  let self :=
    fold_left (fun o kv => PipelineOptions.__setitem__ o kv.1 kv.2) later
              (PipelineOptions.__init__ env options defaults env_prefix) in
  PipelineOptions.__getitem__ env self key
  = match PipelineOptions._items self !! key with
    | Some v => Ok v
    | None =>
        match env !! env_var_name env_prefix key with
        | Some v => Ok v
        | None => Raise (KeyError key)
        end
    end
  /\ forall (value : string) (env' : environ),
      PipelineOptions.__getitem__ env'
        (PipelineOptions.__setitem__ self key value) key = Ok value.
Proof.
  intros self. split.
  - assert (Hp : PipelineOptions._env_prefix self ++ key
                 = env_var_name env_prefix key).
    { rewrite <- (init_env_prefix env options defaults env_prefix key).
      f_equal. subst self.
      generalize (PipelineOptions.__init__ env options defaults env_prefix).
      induction later as [|kv later IH]; intros o; simpl; [done|].
      by rewrite IH. }
    unfold PipelineOptions.__getitem__, PipelineOptions._getenv.
    rewrite Hp.
    destruct (PipelineOptions._items self !! key); [done|].
    by destruct (env !! env_var_name env_prefix key).
  - intros value env'. apply getitem_explicit. simpl. apply lookup_insert_eq.
Qed.

(** C9.  Deleting a key, iterating and taking the length raise
    NotImplementedError in every state of the resolver, and the resolver is
    the same afterwards: every key reads as before. *)
Theorem unsupported_operations (self : PipelineOptions.t) (key : string) :
  (PipelineOptions.__delitem__ self key).1 = Raise NotImplementedError
  /\ (PipelineOptions.__iter__ self).1 = Raise NotImplementedError
  /\ (PipelineOptions.__len__ self).1 = Raise NotImplementedError
  /\ (PipelineOptions.__delitem__ self key).2 = self
  /\ (PipelineOptions.__iter__ self).2 = self
  /\ (PipelineOptions.__len__ self).2 = self
  /\ forall (env : environ) (k : string),
      PipelineOptions.__getitem__ env (PipelineOptions.__delitem__ self key).2 k
      = PipelineOptions.__getitem__ env self k.
Proof. repeat split. Qed.

Example demo_init_ok : demo_init.1 = Ok tt.
Proof. vm_compute. reflexivity. Qed.

Example demo_log_uri :
  PipelineOptions.get demo_environ (EasyPipeline.options demo_pipeline) "LOG_URI"
  = Some "us-east-1-demo".
Proof. vm_compute. reflexivity. Qed.

Example demo_registry : EasyPipeline.collection demo_pipeline = [0].
Proof. vm_compute. reflexivity. Qed.

(** ** The registry *)

Lemma find_app {A} (f : A -> bool) (xs ys : list A) :
  find f (xs ++ ys) = match find f xs with Some x => Some x | None => find f ys end.
Proof. induction xs as [|x xs IH]; simpl; [done|]. by destruct (f x). Qed.

Lemma find_agree {A} (f g : A -> bool) (xs : list A) :
  Forall (fun x => f x = g x) xs -> find f xs = find g xs.
Proof.
  induction 1 as [|x xs Hx _ IH]; simpl; [done|]. rewrite Hx. by destruct (g x).
Qed.

Lemma filter_agree {A} (f g : A -> bool) (xs : list A) :
  Forall (fun x => f x = g x) xs -> List.filter f xs = List.filter g xs.
Proof.
  induction 1 as [|x xs Hx _ IH]; simpl; [done|]. rewrite Hx, IH. done.
Qed.

Lemma has_id_alloc (h : list object) (o : object) (id : string) (l : loc) :
  l < length h -> has_id (h ++ [o]) id l = has_id h id l.
Proof. intros Hl. unfold has_id. by rewrite lookup_app_l. Qed.

Lemma has_id_fresh (h : list object) (o : object) (id : string) :
  has_id (h ++ [o]) id (length h) = bool_decide (obj_id o = id).
Proof. unfold has_id. by rewrite list_lookup_middle. Qed.

Lemma has_id_valid (h : list object) (id : string) (l : loc) :
  has_id h id l = true -> exists o, h !! l = Some o /\ obj_id o = id.
Proof.
  unfold has_id. destruct (h !! l) as [o|]; [|done].
  intros H%bool_decide_eq_true. eauto.
Qed.

Lemma has_id_alter (f : object -> object) (h : list object) (d : loc)
    (id : string) (l : loc) :
  (forall o, obj_id (f o) = obj_id o) ->
  has_id (alter f d h) id l = has_id h id l.
Proof.
  intros Hf. unfold has_id. destruct (decide (d = l)) as [->|Hne].
  - rewrite list_lookup_alter_eq. destruct (h !! l); cbn; [|reflexivity]. by rewrite Hf.
  - by rewrite list_lookup_alter_ne.
Qed.

Lemma get_object_valid (p : t) (id : string) (l : loc) :
  _get_object p id = Some l ->
  In l (collection p) /\ exists o, heap p !! l = Some o /\ obj_id o = id.
Proof.
  intros [Hin Hid]%find_some. split; [done|]. by apply has_id_valid.
Qed.

Lemma ensure_object_found (id : string) (c : cls) kwargs (p : t) (l : loc) :
  _get_object p id = Some l -> _ensure_object id c kwargs p = (Ok l, p).
Proof. intros H. unfold _ensure_object. by rewrite H. Qed.

Lemma get_object_alloc (p : t) (o : object) (id : string) :
  store_ok p ->
  _get_object (with_heap (heap p ++ [o]) p) id = _get_object p id.
Proof.
  intros Hok. unfold _get_object; simpl. apply find_agree.
  eapply Forall_impl; [exact Hok|]. intros l Hl. by apply has_id_alloc.
Qed.

Lemma ensure_object_fresh (id : string) (c : cls) kwargs (p : t) :
  store_ok p ->
  _get_object p id = None ->
  _ensure_object id c kwargs p
  = (Ok (length (heap p)), registered (new_object c id kwargs) p).
Proof.
  intros Hok Hnone. unfold _ensure_object. rewrite Hnone.
  unfold bind, alloc, add, ret, bound_record.
  cbn [heap with_heap]. rewrite list_lookup_middle by done.
  cbn [obj_id new_object].
  rewrite (get_object_alloc p _ id Hok), Hnone. reflexivity.
Qed.

Lemma get_object_registered_same (o : object) (p : t) :
  store_ok p ->
  _get_object p (obj_id o) = None ->
  _get_object (registered o p) (obj_id o) = Some (length (heap p)).
Proof.
  intros Hok Hnone. unfold _get_object, registered; simpl.
  rewrite find_app.
  replace (find (has_id (heap p ++ [o]) (obj_id o)) (collection p))
    with (@None loc).
  - simpl. rewrite has_id_fresh. by rewrite bool_decide_eq_true_2.
  - rewrite <- Hnone. symmetry. apply (get_object_alloc p o (obj_id o) Hok).
Qed.

Lemma get_object_registered_other (o : object) (p : t) (id : string) :
  store_ok p ->
  obj_id o <> id ->
  _get_object (registered o p) id = _get_object p id.
Proof.
  intros Hok Hne. unfold _get_object, registered; simpl.
  rewrite find_app.
  pose proof (get_object_alloc p o id Hok) as Ha. unfold _get_object in Ha.
  simpl in Ha. rewrite Ha.
  destruct (find (has_id (heap p) id) (collection p)); [done|].
  simpl. rewrite has_id_fresh. by rewrite bool_decide_eq_false_2.
Qed.

Lemma store_ok_registered (o : object) (p : t) :
  store_ok p -> store_ok (registered o p).
Proof.
  intros Hok. unfold store_ok, registered; simpl.
  rewrite length_app; simpl. apply Forall_app. split.
  - eapply Forall_impl; [exact Hok|]. simpl. lia.
  - apply Forall_singleton. lia.
Qed.

(** What [_ensure_object] does in a consistent state: it returns the record
    bound to the id, or allocates and registers one when there is none. *)
Lemma ensure_object_spec (id : string) (c : cls) kwargs (p : t) :
  store_ok p ->
  (exists l, _get_object p id = Some l
             /\ _ensure_object id c kwargs p = (Ok l, p))
  \/ (_get_object p id = None
      /\ _ensure_object id c kwargs p
         = (Ok (length (heap p)), registered (new_object c id kwargs) p)).
Proof.
  intros Hok. destruct (_get_object p id) as [l|] eqn:Hg.
  - left. exists l. split; [done|]. by apply ensure_object_found.
  - right. split; [done|]. by apply ensure_object_fresh.
Qed.

(** After [_ensure_object] the id is bound to the record returned, the
    bindings and the records that existed are as they were, and the rest of
    the instance is untouched. *)
Lemma ensure_object_post (id : string) (c : cls) kwargs (p : t) :
  store_ok p ->
  exists l p1,
    _ensure_object id c kwargs p = (Ok l, p1)
    /\ _get_object p1 id = Some l
    /\ store_ok p1
    /\ options p1 = options p /\ name p1 = name p /\ region_name p1 = region_name p
    /\ (forall id' l', _get_object p id' = Some l' -> _get_object p1 id' = Some l')
    /\ (forall l' o, heap p !! l' = Some o -> heap p1 !! l' = Some o)
    /\ (p1 = p \/ _get_object p id = None /\ p1 = registered (new_object c id kwargs) p).
Proof.
  intros Hok. destruct (ensure_object_spec id c kwargs p Hok) as [(l & Hg & He)|[Hg He]].
  - exists l, p. repeat split; auto.
  - exists (length (heap p)), (registered (new_object c id kwargs) p).
    split; [done|]. split.
    { apply (get_object_registered_same (new_object c id kwargs) p Hok Hg). }
    split; [by apply store_ok_registered|].
    repeat split; auto.
    + intros id' l' Hl'. rewrite get_object_registered_other; [done|done|].
      simpl. intros ->. congruence.
    + intros l' o Hl'. simpl. by apply lookup_app_l_Some.
Qed.

Lemma resolves_value (env : environ) (p : t) (key : string) :
  resolves env p key ->
  exists v, PipelineOptions.__getitem__ env (options p) key = Ok v.
Proof.
  unfold resolves, PipelineOptions.__contains__.
  destruct (PipelineOptions.__getitem__ env (options p) key) as [v|e]; [eauto|done].
Qed.

Lemma configured_values (env : environ) (p : t) :
  configured env p ->
  forall key, In key REQUIRED_OPTIONS ->
  exists v, PipelineOptions.__getitem__ env (options p) key = Ok v.
Proof.
  intros [_ Hall] key Hin. apply resolves_value.
  rewrite Forall_forall in Hall. apply Hall. by apply list_elem_of_In.
Qed.

Ltac required key :=
  match goal with
  | H : configured ?env ?p |- _ =>
      let v := fresh "v" in
      let Hv := fresh "Hv" in
      destruct (configured_values env p H key) as [v Hv];
      [unfold REQUIRED_OPTIONS; simpl; tauto|]
  end.

Lemma get_defaults_ensure (env : environ) (p : t) :
  configured env p ->
  exists kwargs,
    get_defaults env p = _ensure_object "Default" DataPipelineObject kwargs p.
Proof.
  intros Hc. required "LOG_URI". required "PIPELINE_ROLE".
  required "PIPELINE_RESOURCE_ROLE".
  eexists. unfold get_defaults, bind, option_value. rewrite Hv, Hv0, Hv1.
  reflexivity.
Qed.

Lemma get_shell_command_activity_ensure (id : string) (p : t) :
  exists kwargs,
    get_shell_command_activity id p = _ensure_object id ShellCommandActivity kwargs p.
Proof. eexists. reflexivity. Qed.

Lemma get_ec2_resource_ensure (env : environ) (id : string) (p : t) :
  configured env p ->
  exists kwargs, get_ec2_resource env id p = _ensure_object id Ec2Resource kwargs p.
Proof.
  intros Hc. required "EC2_AMI". required "EC2_KEYPAIR". required "EC2_SUBNET".
  required "EC2_SECURITY_GROUP".
  eexists. unfold get_ec2_resource, bind, option_value. rewrite Hv, Hv0, Hv1, Hv2.
  reflexivity.
Qed.

Lemma get_sns_alarm_ensure (env : environ) (id : string) (p : t) :
  configured env p ->
  exists kwargs, get_sns_alarm env id p = _ensure_object id SnsAlarm kwargs p.
Proof.
  intros Hc. required "PIPELINE_ROLE".
  eexists. unfold get_sns_alarm, bind, option_value. rewrite Hv. reflexivity.
Qed.

Lemma format_msg_body (n r : string) :
  exists s, Py.format msg_body_template [] [("name", n); ("region", r)] = Ok s.
Proof. eexists. vm_compute. reflexivity. Qed.

Lemma format_subject (n : string) :
  exists s, Py.format "{} FAILED on {}" [n; date_fmt] [] = Ok s.
Proof. eexists. vm_compute. reflexivity. Qed.

Lemma get_sns_failure_handler_ensure (env : environ) (id : string) (p : t) :
  configured env p ->
  exists kwargs,
    get_sns_failure_handler env id p = _ensure_object id SnsAlarm kwargs p.
Proof.
  intros Hc. required "PIPELINE_ROLE".
  destruct (format_msg_body (name p) (region_name p)) as [body Hbody].
  destruct (format_subject (name p)) as [subj Hsubj].
  eexists. unfold get_sns_failure_handler, bind, option_value, lift.
  rewrite Hbody, Hv, Hsubj. reflexivity.
Qed.

Lemma configured_options (env : environ) (p q : t) :
  configured env p -> store_ok q -> options q = options p -> configured env q.
Proof.
  intros [_ Hall] Hq Ho. split; [done|].
  eapply Forall_impl; [exact Hall|]. intros k. unfold resolves. by rewrite Ho.
Qed.

Lemma get_object_set_attr (d : loc) (attr : string) (v : value) (p : t) (id : string) :
  _get_object (set_attr d attr v p).2 id = _get_object p id.
Proof.
  unfold _get_object; simpl. apply find_agree, Forall_forall. intros l _.
  by apply has_id_alter.
Qed.

Lemma store_ok_set_attr (d : loc) (attr : string) (v : value) (p : t) :
  store_ok p -> store_ok (set_attr d attr v p).2.
Proof. unfold store_ok; simpl. by rewrite length_alter. Qed.

Lemma scheduled_fixed (d l : loc) (p : t) :
  scheduled d l (scheduled d l p) = scheduled d l p.
Proof.
  destruct p as [n u de r o h c].
  unfold scheduled, set_attr, with_heap; simpl. f_equal.
  apply list_eq. intros j. destruct (decide (d = j)) as [->|Hne].
  - rewrite !list_lookup_alter_eq. destruct (h !! j) as [x|]; simpl; [|done].
    f_equal. unfold set_field; simpl. f_equal.
    apply map_eq. intros k.
    destruct (decide (k = "schedule")) as [->|]; [by simplify_map_eq|].
    destruct (decide (k = "scheduleType")) as [->|]; by simplify_map_eq.
  - by rewrite !list_lookup_alter_ne.
Qed.

Lemma scheduled_attrs (d l : loc) (p : t) (o : object) :
  heap p !! d = Some o ->
  attr_of (scheduled d l p) d "scheduleType" = Some (VKeyword scheduleType_cron)
  /\ attr_of (scheduled d l p) d "schedule" = Some (VRef l).
Proof.
  intros Hd. unfold attr_of, scheduled, set_attr; simpl.
  rewrite !list_lookup_alter_eq, Hd. simpl. split; by simplify_map_eq.
Qed.

Lemma get_schedule_spec (env : environ) (id : string) (p : t) :
  configured env p ->
  exists l d p2,
    get_schedule env id p = (Ok l, scheduled d l p2)
    /\ _get_object p2 id = Some l
    /\ _get_object p2 "Default" = Some d
    /\ store_ok p2
    /\ options p2 = options p
    /\ (forall id' l', _get_object p id' = Some l' -> _get_object p2 id' = Some l')
    /\ (forall l' o, heap p !! l' = Some o -> heap p2 !! l' = Some o).
Proof.
  intros Hc. pose proof Hc as [Hok _].
  destruct (ensure_object_post id Schedule [("name", VStr id)] p Hok)
    as (l & p1 & He1 & Hg1 & Hok1 & Ho1 & _ & _ & Hb1 & Hf1 & _).
  assert (Hc1 : configured env p1) by (by apply (configured_options env p)).
  destruct (get_defaults_ensure env p1 Hc1) as [kw Hkw].
  destruct (ensure_object_post "Default" DataPipelineObject kw p1 Hok1)
    as (d & p2 & He2 & Hg2 & Hok2 & Ho2 & _ & _ & Hb2 & Hf2 & _).
  exists l, d, p2. split.
  { unfold get_schedule, bind at 1. rewrite He1.
    unfold bind at 1. rewrite Hkw, He2. reflexivity. }
  repeat split; auto; congruence.
Qed.

Lemma get_schedule_scheduled (env : environ) (id : string) (p2 : t) (l d : loc) :
  configured env p2 ->
  _get_object p2 id = Some l ->
  _get_object p2 "Default" = Some d ->
  get_schedule env id (scheduled d l p2) = (Ok l, scheduled d l p2).
Proof.
  intros Hc Hl Hd.
  set (p3 := scheduled d l p2).
  assert (Hg : forall x, _get_object p3 x = _get_object p2 x).
  { intros x. unfold p3, scheduled. by rewrite !get_object_set_attr. }
  assert (Hc3 : configured env p3).
  { apply (configured_options env p2); [done| |done].
    unfold p3, scheduled. apply store_ok_set_attr, store_ok_set_attr, Hc. }
  destruct (get_defaults_ensure env p3 Hc3) as [kw Hkw].
  unfold get_schedule, bind at 1.
  rewrite (ensure_object_found id _ _ p3 l) by (by rewrite Hg).
  unfold bind at 1. rewrite Hkw.
  rewrite (ensure_object_found "Default" _ _ p3 d) by (by rewrite Hg).
  transitivity (Ok l, scheduled d l p3); [reflexivity|].
  unfold p3. by rewrite scheduled_fixed.
Qed.

(** ** Schedules and the Default record *)

Lemma get_defaults_found (env : environ) (p : t) (d : loc) :
  configured env p ->
  _get_object p "Default" = Some d ->
  get_defaults env p = (Ok d, p).
Proof.
  intros Hc Hd. destruct (get_defaults_ensure env p Hc) as [kw ->].
  by apply ensure_object_found.
Qed.

Lemma configured_scheduled (env : environ) (d l : loc) (p : t) :
  configured env p -> configured env (scheduled d l p).
Proof.
  intros Hc. apply (configured_options env p); [done| |done].
  unfold scheduled. apply store_ok_set_attr, store_ok_set_attr, Hc.
Qed.

Lemma get_object_scheduled (d l : loc) (p : t) (id : string) :
  _get_object (scheduled d l p) id = _get_object p id.
Proof. unfold scheduled. by rewrite !get_object_set_attr. Qed.

Ltac solve_demo_configured :=
  split;
  [ unfold store_ok; vm_compute; repeat constructor
  | unfold resolves; repeat constructor; vm_compute; reflexivity ].

(** ** An id that is already bound *)

Lemma cls_of_scheduled (d l : loc) (p : t) (x : loc) :
  cls_of (scheduled d l p) x = cls_of p x.
Proof.
  unfold cls_of, scheduled, set_attr; simpl.
  destruct (decide (d = x)) as [->|Hne].
  - rewrite !list_lookup_alter_eq. by destruct (heap p !! x).
  - by rewrite !list_lookup_alter_ne.
Qed.


(** ** What the accessors leave alone *)

Lemma keeps_records_refl (p : t) : keeps_records p p.
Proof. split; [auto|reflexivity]. Qed.

Lemma ensure_object_keeps (id : string) (c : cls) kwargs (p : t) :
  keeps_records p (_ensure_object id c kwargs p).2.
Proof.
  unfold _ensure_object. destruct (_get_object p id); [apply keeps_records_refl|].
  unfold bind, alloc, add, ret. cbn [heap with_heap].
  rewrite list_lookup_middle by done.
  assert (Hh : forall l o, heap p !! l = Some o ->
                           (heap p ++ [new_object c id kwargs])%list !! l = Some o).
  { intros l o Hl. by apply lookup_app_l_Some. }
  destruct (bound_record _ _) as [o'|].
  - destruct (bool_decide _); (split; [exact Hh|reflexivity]).
  - split; [exact Hh|]. simpl. by apply prefix_app_r.
Qed.

Lemma get_defaults_shape (env : environ) (p : t) :
  at_most_ensure "Default" DataPipelineObject (get_defaults env p) p.
Proof.
  unfold at_most_ensure, get_defaults, bind, option_value.
  repeat (destruct (PipelineOptions.__getitem__ env (options p) _); [|by left]).
  right. eauto.
Qed.

Lemma get_shell_command_activity_shape (id : string) (p : t) :
  at_most_ensure id ShellCommandActivity (get_shell_command_activity id p) p.
Proof. right. eexists. reflexivity. Qed.

Lemma get_ec2_resource_shape (env : environ) (id : string) (p : t) :
  at_most_ensure id Ec2Resource (get_ec2_resource env id p) p.
Proof.
  unfold at_most_ensure, get_ec2_resource, bind, option_value.
  repeat (destruct (PipelineOptions.__getitem__ env (options p) _); [|by left]).
  right. eauto.
Qed.

Lemma get_sns_alarm_shape (env : environ) (id : string) (p : t) :
  at_most_ensure id SnsAlarm (get_sns_alarm env id p) p.
Proof.
  unfold at_most_ensure, get_sns_alarm, bind, option_value.
  repeat (destruct (PipelineOptions.__getitem__ env (options p) _); [|by left]).
  right. eauto.
Qed.

Lemma get_sns_failure_handler_shape (env : environ) (id : string) (p : t) :
  at_most_ensure id SnsAlarm (get_sns_failure_handler env id p) p.
Proof.
  unfold at_most_ensure, get_sns_failure_handler, bind, option_value, lift.
  destruct (Py.format msg_body_template _ _); [|by left].
  destruct (PipelineOptions.__getitem__ env (options p) _); [|by left].
  destruct (Py.format _ _ _); [|by left].
  right. eauto.
Qed.

Lemma at_most_ensure_keeps (id : string) (c : cls) (r : result loc * t) (p : t) :
  at_most_ensure id c r p -> keeps_records p r.2.
Proof.
  intros [->|[kw ->]]; [apply keeps_records_refl|apply ensure_object_keeps].
Qed.

(** C10.  In every state and with every outcome, the accessors for
    activities, compute resources and alarms (and [get_defaults]) leave each
    record that existed as it was, the Default record included, and leave
    the registered records registered.  [get_schedule] is the accessor that
    does change a record other than the one it returns: in the demo
    pipeline it changes the Default record. *)
Theorem accessors_frame (env : environ) (id : string) (p : t) :
  keeps_records p (get_shell_command_activity id p).2
  /\ keeps_records p (get_ec2_resource env id p).2
  /\ keeps_records p (get_sns_alarm env id p).2
  /\ keeps_records p (get_sns_failure_handler env id p).2
  /\ keeps_records p (get_defaults env p).2
  /\ ~ keeps_records demo_pipeline (get_schedule demo_environ "S1" demo_pipeline).2.
Proof.
  split; [|split; [|split; [|split; [|split]]]].
  - exact (at_most_ensure_keeps _ _ _ _ (get_shell_command_activity_shape id p)).
  - exact (at_most_ensure_keeps _ _ _ _ (get_ec2_resource_shape env id p)).
  - exact (at_most_ensure_keeps _ _ _ _ (get_sns_alarm_shape env id p)).
  - exact (at_most_ensure_keeps _ _ _ _ (get_sns_failure_handler_shape env id p)).
  - exact (at_most_ensure_keeps _ _ _ _ (get_defaults_shape env p)).
  - intros [Hkeep _].
    destruct (heap demo_pipeline !! 0) as [o|] eqn:Ho; [|vm_compute in Ho; discriminate].
    pose proof (Hkeep 0 o Ho) as Ho'.
    assert (Ha : attr_of (get_schedule demo_environ "S1" demo_pipeline).2 0 "scheduleType"
                 = attr_of demo_pipeline 0 "scheduleType").
    { unfold attr_of. by rewrite Ho, Ho'. }
    vm_compute in Ha. discriminate.
Qed.

(** ** Exactly one Default record *)

Lemma find_none_filter {A} (f : A -> bool) (xs : list A) :
  find f xs = None -> List.filter f xs = [].
Proof.
  induction xs as [|x xs IH]; simpl; [done|]. destruct (f x); [done|exact IH].
Qed.

Lemma records_with_id_none (p : t) (id : string) :
  _get_object p id = None -> records_with_id p id = [].
Proof. apply find_none_filter. Qed.

Lemma records_with_id_registered (o : object) (p : t) (id : string) :
  store_ok p ->
  obj_id o <> id ->
  records_with_id (registered o p) id = records_with_id p id.
Proof.
  intros Hok Hne. unfold records_with_id, registered; simpl.
  rewrite List.filter_app; simpl. rewrite has_id_fresh.
  rewrite bool_decide_eq_false_2 by done. rewrite app_nil_r.
  apply filter_agree. eapply Forall_impl; [exact Hok|].
  intros l Hl. by apply has_id_alloc.
Qed.

Lemma records_with_id_set_attr (d : loc) (attr : string) (v : value) (p : t)
    (id : string) :
  records_with_id (set_attr d attr v p).2 id = records_with_id p id.
Proof.
  unfold records_with_id; simpl. apply filter_agree, Forall_forall.
  intros l _. by apply has_id_alter.
Qed.

Lemma records_with_id_scheduled (d l : loc) (p : t) (id : string) :
  records_with_id (scheduled d l p) id = records_with_id p id.
Proof. unfold scheduled. by rewrite !records_with_id_set_attr. Qed.

Lemma one_default_ensure (id : string) (c : cls) kwargs (p : t) :
  one_default p -> one_default (_ensure_object id c kwargs p).2.
Proof.
  intros [Hok Hone].
  destruct (ensure_object_spec id c kwargs p Hok) as [(l & _ & ->)|[Hnone ->]];
    [by split|].
  simpl. split; [by apply store_ok_registered|].
  rewrite records_with_id_registered; [done|done|].
  simpl. intros ->. rewrite (records_with_id_none p "Default" Hnone) in Hone.
  discriminate.
Qed.

Lemma one_default_at_most_ensure (id : string) (c : cls) (r : result loc * t) (p : t) :
  at_most_ensure id c r p -> one_default p -> one_default r.2.
Proof. intros [->|[kw ->]] H; [done|by apply one_default_ensure]. Qed.

Lemma one_default_get_schedule (env : environ) (id : string) (p : t) :
  one_default p -> one_default (get_schedule env id p).2.
Proof.
  intros H1. unfold get_schedule, bind at 1.
  pose proof (one_default_ensure id Schedule [("name", VStr id)] p H1) as H2.
  destruct (_ensure_object id Schedule _ p) as [[l|e] p1]; [|exact H2].
  unfold bind at 1.
  pose proof (one_default_at_most_ensure _ _ _ _ (get_defaults_shape env p1) H2) as H3.
  destruct (get_defaults env p1) as [[d|e] p2]; [|exact H3].
  change (one_default (scheduled d l p2)).
  destruct H3 as [Hok Hone]. split.
  - unfold scheduled. by apply store_ok_set_attr, store_ok_set_attr.
  - by rewrite records_with_id_scheduled.
Qed.

(** ** Construction *)

Lemma synthesize_log_uri_options (env : environ) (n r : string) (p : t) :
  exists o, (synthesize_log_uri env n r p).2 = with_options o p.
Proof.
  unfold synthesize_log_uri, bind, option_value, lift.
  destruct (negb _ && _); [|exists (options p); by destruct p].
  destruct (PipelineOptions.__getitem__ env (options p) "LOG_URI_TEMPLATE");
    [|exists (options p); by destruct p].
  destruct (Py.format _ _ _); [|exists (options p); by destruct p].
  eexists. reflexivity.
Qed.

Lemma missing_opts_nil (env : environ) (o : PipelineOptions.t) :
  missing_opts env o = [] ->
  forall k, In k REQUIRED_OPTIONS -> PipelineOptions.__contains__ env o k = true.
Proof.
  intros Hnil k Hin. unfold missing_opts in Hnil.
  destruct (PipelineOptions.__contains__ env o k) eqn:Hk; [done|].
  assert (Hm : In k (List.filter
                       (fun o0 => negb (PipelineOptions.__contains__ env o o0))
                       REQUIRED_OPTIONS)).
  { apply List.filter_In. split; [done|]. by rewrite Hk. }
  rewrite Hnil in Hm. destruct Hm.
Qed.

Lemma missing_opts_In (env : environ) (o : PipelineOptions.t) (k : string) :
  In k (missing_opts env o)
  <-> In k REQUIRED_OPTIONS /\ PipelineOptions.__contains__ env o k = false.
Proof.
  unfold missing_opts. rewrite List.filter_In.
  destruct (PipelineOptions.__contains__ env o k); simpl; intuition congruence.
Qed.

Lemma check_required_ok (env : environ) (p : t) :
  missing_opts env (options p) = [] -> check_required env p = (Ok tt, p).
Proof. intros H. unfold check_required. by rewrite H. Qed.

Lemma check_required_raise (env : environ) (p : t) :
  missing_opts env (options p) <> [] ->
  check_required env p
  = (Raise (ValueError ("The following required options are not set: "
                          ++ Py.repr_list (missing_opts env (options p)))), p).
Proof.
  intros H. unfold check_required.
  by destruct (missing_opts env (options p)).
Qed.

Lemma configured_unregistered (env : environ) (p : t) :
  collection p = [] ->
  missing_opts env (options p) = [] ->
  configured env p.
Proof.
  intros Hc Hm. split.
  - unfold store_ok. rewrite Hc. constructor.
  - apply Forall_forall. intros k Hk%list_elem_of_In.
    by apply (missing_opts_nil env (options p) Hm).
Qed.

Lemma get_defaults_values (env : environ) (p : t) (log_uri role resource_role : string) :
  PipelineOptions.__getitem__ env (options p) "LOG_URI" = Ok log_uri ->
  PipelineOptions.__getitem__ env (options p) "PIPELINE_ROLE" = Ok role ->
  PipelineOptions.__getitem__ env (options p) "PIPELINE_RESOURCE_ROLE"
    = Ok resource_role ->
  get_defaults env p
  = _ensure_object "Default" DataPipelineObject
      [("name", VStr "Default");
       ("scheduleType", VKeyword scheduleType_ondemand);
       ("failureAndRerunMode", VKeyword failureAndRerunMode_CASCADE);
       ("pipelineLogUri", VStr log_uri);
       ("role", VStr role);
       ("resourceRole", VStr resource_role)] p.
Proof.
  intros H1 H2 H3. unfold get_defaults, bind, option_value.
  by rewrite H1, H2, H3.
Qed.

(** A successful construction, step by step. *)
Lemma init_ok_steps (env : environ) (h0 : list object) (n u : string)
    (opts : PipelineOptions.t) (desc : option string) (r : string) (p : t) :
  __init__ env h0 n u opts desc r = (Ok tt, p) ->
  exists p1 log_uri role resource_role,
    synthesize_log_uri env n r (Pipeline__init__ h0 n u desc r opts) = (Ok tt, p1)
    /\ collection p1 = [] /\ heap p1 = h0
    /\ configured env p1
    /\ PipelineOptions.__getitem__ env (options p1) "LOG_URI" = Ok log_uri
    /\ PipelineOptions.__getitem__ env (options p1) "PIPELINE_ROLE" = Ok role
    /\ PipelineOptions.__getitem__ env (options p1) "PIPELINE_RESOURCE_ROLE"
       = Ok resource_role
    /\ p = registered
             (new_object DataPipelineObject "Default"
                [("name", VStr "Default");
                 ("scheduleType", VKeyword scheduleType_ondemand);
                 ("failureAndRerunMode", VKeyword failureAndRerunMode_CASCADE);
                 ("pipelineLogUri", VStr log_uri);
                 ("role", VStr role);
                 ("resourceRole", VStr resource_role)]) p1.
Proof.
  unfold __init__, init_body. set (p0 := Pipeline__init__ h0 n u desc r opts).
  intros Hinit. unfold bind at 1 in Hinit.
  destruct (synthesize_log_uri_options env n r p0) as [o Hp1].
  destruct (synthesize_log_uri env n r p0) as [[[]|e] p1] eqn:Hs; [|done].
  simpl in Hp1. subst p1. set (p1 := with_options o p0) in *.
  unfold bind at 1 in Hinit.
  destruct (missing_opts env (options p1)) as [|m ms] eqn:Hm.
  2:{ rewrite check_required_raise in Hinit by (by rewrite Hm). done. }
  rewrite (check_required_ok env p1 Hm) in Hinit.
  assert (Hc : configured env p1) by (by apply configured_unregistered).
  destruct (configured_values env p1 Hc "LOG_URI") as [v1 Hv1];
    [unfold REQUIRED_OPTIONS; simpl; tauto|].
  destruct (configured_values env p1 Hc "PIPELINE_ROLE") as [v2 Hv2];
    [unfold REQUIRED_OPTIONS; simpl; tauto|].
  destruct (configured_values env p1 Hc "PIPELINE_RESOURCE_ROLE") as [v3 Hv3];
    [unfold REQUIRED_OPTIONS; simpl; tauto|].
  unfold bind at 1 in Hinit.
  rewrite (get_defaults_values env p1 v1 v2 v3 Hv1 Hv2 Hv3) in Hinit.
  rewrite ensure_object_fresh in Hinit; [|apply Hc|reflexivity].
  simpl in Hinit. injection Hinit as <-.
  exists p1, v1, v2, v3. repeat split; auto; apply Hc.
Qed.

(** C7.  A successful construction leaves a registry whose only record is
    the Default record: its id is Default, its schedule type is on-demand,
    its failure-and-rerun mode is cascade, and its log URI, role and
    resource role are what the resolver gives for LOG_URI, PIPELINE_ROLE and
    PIPELINE_RESOURCE_ROLE.  Every accessor, with every outcome, keeps the
    registry at exactly one record of id Default. *)
Theorem one_default_record (env : environ) (h0 : list object) (n u : string)
    (opts : PipelineOptions.t) (desc : option string) (r : string) (p : t) :
  __init__ env h0 n u opts desc r = (Ok tt, p) ->
  (exists d log_uri role resource_role,
      collection p = [d]
      /\ records_with_id p "Default" = [d]
      /\ cls_of p d = Some DataPipelineObject
      /\ attr_of p d "scheduleType" = Some (VKeyword scheduleType_ondemand)
      /\ attr_of p d "failureAndRerunMode" = Some (VKeyword failureAndRerunMode_CASCADE)
      /\ PipelineOptions.__getitem__ env (options p) "LOG_URI" = Ok log_uri
      /\ attr_of p d "pipelineLogUri" = Some (VStr log_uri)
      /\ PipelineOptions.__getitem__ env (options p) "PIPELINE_ROLE" = Ok role
      /\ attr_of p d "role" = Some (VStr role)
      /\ PipelineOptions.__getitem__ env (options p) "PIPELINE_RESOURCE_ROLE"
         = Ok resource_role
      /\ attr_of p d "resourceRole" = Some (VStr resource_role))
  /\ one_default p
  /\ forall (q : t) (id : string),
      one_default q ->
      one_default (get_defaults env q).2
      /\ one_default (get_shell_command_activity id q).2
      /\ one_default (get_schedule env id q).2
      /\ one_default (get_ec2_resource env id q).2
      /\ one_default (get_sns_alarm env id q).2
      /\ one_default (get_sns_failure_handler env id q).2.
Proof.
  intros Hinit.
  destruct (init_ok_steps env h0 n u opts desc r p Hinit)
    as (p1 & v1 & v2 & v3 & _ & Hcoll & Hheap & Hc & Hv1 & Hv2 & Hv3 & ->).
  assert (Hrec : records_with_id (registered
             (new_object DataPipelineObject "Default"
                [("name", VStr "Default");
                 ("scheduleType", VKeyword scheduleType_ondemand);
                 ("failureAndRerunMode", VKeyword failureAndRerunMode_CASCADE);
                 ("pipelineLogUri", VStr v1);
                 ("role", VStr v2);
                 ("resourceRole", VStr v3)]) p1) "Default" = [length (heap p1)]).
  { unfold records_with_id, registered; simpl. rewrite Hcoll; simpl.
    rewrite has_id_fresh. reflexivity. }
  split; [|split].
  - exists (length (heap p1)), v1, v2, v3.
    split. { simpl. by rewrite Hcoll. }
    split; [exact Hrec|].
    unfold cls_of, attr_of, registered; simpl.
    rewrite list_lookup_middle by done.
    repeat split; try done; vm_compute; reflexivity.
  - split; [apply store_ok_registered, Hc|]. by rewrite Hrec.
  - intros q id Hq.
    split. { exact (one_default_at_most_ensure _ _ _ _ (get_defaults_shape env q) Hq). }
    split. { exact (one_default_at_most_ensure _ _ _ _
                      (get_shell_command_activity_shape id q) Hq). }
    split. { by apply one_default_get_schedule. }
    split. { exact (one_default_at_most_ensure _ _ _ _
                      (get_ec2_resource_shape env id q) Hq). }
    split. { exact (one_default_at_most_ensure _ _ _ _
                      (get_sns_alarm_shape env id q) Hq). }
    exact (one_default_at_most_ensure _ _ _ _
             (get_sns_failure_handler_shape env id q) Hq).
Qed.

Lemma one_default_record_witness : one_default demo_pipeline.
Proof.
  refine (proj1 (proj2 (one_default_record demo_environ [] "demo" "demo-1"
                          demo_options None "us-east-1" demo_pipeline _))).
  vm_compute. reflexivity.
Defined.

(** ** The error of a failed validation *)

Lemma contains_refl (s : string) : Py.contains s s.
Proof. exists "", "". by rewrite string_app_nil_r. Qed.

Lemma contains_app_l (k a b : string) : Py.contains k a -> Py.contains k (a ++ b).
Proof.
  intros (pre & post & ->). exists pre, (post ++ b).
  by rewrite !string_app_assoc.
Qed.

Lemma contains_app_r (k a b : string) : Py.contains k b -> Py.contains k (a ++ b).
Proof.
  intros (pre & post & ->). exists (a ++ pre), post.
  by rewrite !string_app_assoc.
Qed.

Lemma contains_trans (a b c : string) :
  Py.contains a b -> Py.contains b c -> Py.contains a c.
Proof.
  intros (pre & post & ->) (pre' & post' & ->).
  exists (pre' ++ pre), (post ++ post'). by rewrite !string_app_assoc.
Qed.

Lemma join_contains (sep x : string) (l : list string) :
  In x l -> Py.contains x (Py.join sep l).
Proof.
  induction l as [|y l IH]; [done|]. intros [->|Hin].
  - destruct l; simpl; [apply contains_refl|apply contains_app_l, contains_refl].
  - destruct l as [|z l]; [done|].
    change (Py.join sep (y :: z :: l)) with (y ++ sep ++ Py.join sep (z :: l)).
    by apply contains_app_r, contains_app_r, IH.
Qed.

Lemma repr_list_contains (k : string) (l : list string) :
  In k l -> Py.contains (Py.repr_str k) (Py.repr_list l).
Proof.
  intros Hin. unfold Py.repr_list.
  apply contains_app_r, contains_app_l, join_contains.
  by apply in_map.
Qed.

(** The required option names have no character that [repr] escapes. *)
Lemma repr_required (k : string) :
  In k REQUIRED_OPTIONS -> Py.contains k (Py.repr_str k).
Proof.
  unfold REQUIRED_OPTIONS. simpl.
  intros [<-|[<-|[<-|[<-|[<-|[<-|[<-|[]]]]]]]]; exists "'", "'"; reflexivity.
Qed.

Lemma missing_in_message (env : environ) (o : PipelineOptions.t) (k : string) :
  In k (missing_opts env o) ->
  Py.contains k ("The following required options are not set: "
                   ++ Py.repr_list (missing_opts env o)).
Proof.
  intros Hin. apply contains_app_r.
  apply (contains_trans k (Py.repr_str k)).
  - apply repr_required. by apply missing_opts_In in Hin as [? _].
  - by apply repr_list_contains.
Qed.

Lemma init_validated (env : environ) (h0 : list object) (n u : string)
    (opts : PipelineOptions.t) (desc : option string) (r : string) (p1 : t) :
  synthesize_log_uri env n r (Pipeline__init__ h0 n u desc r opts) = (Ok tt, p1) ->
  missing_opts env (options p1) = [] ->
  (__init__ env h0 n u opts desc r).1 = Ok tt.
Proof.
  intros Hs Hm. unfold __init__, init_body, bind at 1. rewrite Hs.
  unfold bind at 1. rewrite (check_required_ok env p1 Hm).
  assert (Hc : configured env p1).
  { apply configured_unregistered; [|done].
    destruct (synthesize_log_uri_options env n r (Pipeline__init__ h0 n u desc r opts))
      as [o Ho]. rewrite Hs in Ho. simpl in Ho. by subst p1. }
  destruct (get_defaults_ensure env p1 Hc) as [kw Hkw].
  destruct (ensure_object_post "Default" DataPipelineObject kw p1 (proj1 Hc))
    as (l & p2 & He & _).
  unfold bind, ret. by rewrite Hkw, He.
Qed.

(** C2, as the code has it.  Validation comes after the step that derives
    LOG_URI from LOG_URI_TEMPLATE.  When that step raises, the construction
    raises the same exception.  Otherwise the resolver it leaves decides: if
    one of the seven required keys does not resolve in it, the construction
    raises ValueError with a message that contains the name of every
    required key that does not resolve; if all seven resolve, the
    construction succeeds.  A resolver in which all seven resolve from the
    start is always accepted. *)
Theorem required_options_validated (env : environ) (h0 : list object)
    (n u : string) (opts : PipelineOptions.t) (desc : option string) (r : string) :
  let outcome := (__init__ env h0 n u opts desc r).1 in
  match synthesize_log_uri env n r (Pipeline__init__ h0 n u desc r opts) with
  | (Raise e, _) => outcome = Raise e
  | (Ok _, p1) =>
      let missing := missing_opts env (options p1) in
      (forall k, In k missing
                 <-> In k REQUIRED_OPTIONS
                     /\ PipelineOptions.__contains__ env (options p1) k = false)
      /\ (missing = [] -> outcome = Ok tt)
      /\ (missing <> [] ->
          exists msg, outcome = Raise (ValueError msg)
                      /\ forall k, In k missing -> Py.contains k msg)
  end
  /\ (Forall (fun k => PipelineOptions.__contains__ env opts k = true)
             REQUIRED_OPTIONS ->
      outcome = Ok tt).
Proof.
  intros outcome. set (p0 := Pipeline__init__ h0 n u desc r opts). split.
  - destruct (synthesize_log_uri env n r p0) as [[[]|e] p1] eqn:Hs.
    + split; [intros k; apply missing_opts_In|]. split.
      * intros Hm. by apply (init_validated env h0 n u opts desc r p1).
      * intros Hm. eexists. split.
        -- unfold outcome, __init__, init_body, bind at 1. fold p0. rewrite Hs.
           unfold bind at 1. rewrite (check_required_raise env p1 Hm). reflexivity.
        -- intros k. apply missing_in_message.
    + unfold outcome, __init__, init_body, bind at 1. fold p0. by rewrite Hs.
  - intros Hall.
    assert (Hlog : PipelineOptions.__contains__ env opts "LOG_URI" = true).
    { rewrite Forall_forall in Hall. apply Hall, list_elem_of_In.
      unfold REQUIRED_OPTIONS. simpl. tauto. }
    apply (init_validated env h0 n u opts desc r p0).
    + unfold synthesize_log_uri. simpl. by rewrite Hlog.
    + unfold missing_opts. simpl options.
      apply find_none_filter.
      destruct (find _ REQUIRED_OPTIONS) as [k|] eqn:Hf; [|done].
      apply find_some in Hf as [Hin Hk].
      rewrite Forall_forall in Hall.
      rewrite (Hall k) in Hk; [done|by apply list_elem_of_In].
Qed.

(** C2, as stated, fails: in the demo resolver LOG_URI does not resolve (only
    LOG_URI_TEMPLATE does), and the construction succeeds. *)
Lemma unresolved_log_uri_accepted :
  In "LOG_URI" REQUIRED_OPTIONS
  /\ PipelineOptions.__contains__ demo_environ demo_options "LOG_URI" = false
  /\ (__init__ demo_environ [] "demo" "demo-1" demo_options None "us-east-1").1
     = Ok tt.
Proof. vm_compute. split; [tauto|split; reflexivity]. Qed.

Example two_missing_keys :
  (__init__ ∅ [] "demo" "demo-1"
     (PipelineOptions.__init__ ∅
        (Some (list_to_map
                 [("LOG_URI", "s3://logs"); ("PIPELINE_ROLE", "role");
                  ("PIPELINE_RESOURCE_ROLE", "rr"); ("EC2_AMI", "ami");
                  ("EC2_SUBNET", "subnet")]))
        None None)
     None "us-west-2").1
  = Raise (ValueError
      "The following required options are not set: ['EC2_KEYPAIR', 'EC2_SECURITY_GROUP']").
Proof. vm_compute. reflexivity. Qed.

(** ** The LOG_URI template *)

Lemma brace_free_cons (c : ascii) (s : string) :
  brace_free (String c s) = true ->
  Ascii.eqb c "{" = false /\ Ascii.eqb c "}" = false /\ brace_free s = true.
Proof.
  unfold brace_free. cbn [Py.has_char].
  rewrite (Ascii.eqb_sym "{" c), (Ascii.eqb_sym "}" c).
  destruct (Ascii.eqb c "{"), (Ascii.eqb c "}"); cbn [orb negb andb];
    rewrite ?andb_false_r; try done.
Qed.

Lemma format_literal (s rest : string) (num : Py.numbering)
    (args : list string) (kwargs : list (string * string)) :
  brace_free s = true ->
  Py.format_from Py.Text num (s ++ rest) args kwargs
  = Py.emit_str s (Py.format_from Py.Text num rest args kwargs).
Proof.
  induction s as [|c s IH]; intros Hs.
  - change ("" ++ rest) with rest.
    by destruct (Py.format_from Py.Text num rest args kwargs).
  - apply brace_free_cons in Hs as (Ho & Hc & Hs).
    rewrite string_app_cons. cbn [Py.format_from]. rewrite Ho, Hc, (IH Hs).
    by destruct (Py.format_from Py.Text num rest args kwargs).
Qed.

Lemma format_region (r n rest : string) (num : Py.numbering) :
  Py.format_from Py.Text num ("{region}" ++ rest) []
    [("region", r); ("pipeline_name", n)]
  = Py.emit_str r (Py.format_from Py.Text num rest []
                     [("region", r); ("pipeline_name", n)]).
Proof. reflexivity. Qed.

Lemma format_pipeline_name (r n rest : string) (num : Py.numbering) :
  Py.format_from Py.Text num ("{pipeline_name}" ++ rest) []
    [("region", r); ("pipeline_name", n)]
  = Py.emit_str n (Py.format_from Py.Text num rest []
                     [("region", r); ("pipeline_name", n)]).
Proof. reflexivity. Qed.

(** On a template of brace-free text and the two placeholders, [str.format]
    is the substitution. *)
Lemma format_render (r n : string) (ps : list piece) :
  forallb piece_ok ps = true ->
  Py.format (render ps) [] [("region", r); ("pipeline_name", n)]
  = Ok (substitute r n ps).
Proof.
  unfold Py.format. generalize Py.NUnset as num.
  induction ps as [|[s| |] ps IH]; intros num Hok; simpl in Hok.
  - reflexivity.
  - apply andb_prop in Hok as [Hs Hps]. cbn [render substitute].
    rewrite (format_literal s _ _ _ _ Hs), (IH num Hps). reflexivity.
  - cbn [render substitute]. rewrite format_region, (IH num Hok). reflexivity.
  - cbn [render substitute]. rewrite format_pipeline_name, (IH num Hok). reflexivity.
Qed.

Lemma ensure_object_options (id : string) (c : cls) kwargs (p : t) :
  options (_ensure_object id c kwargs p).2 = options p.
Proof.
  unfold _ensure_object. destruct (_get_object p id); [done|].
  unfold bind, alloc, add, ret. cbn [heap with_heap].
  rewrite list_lookup_middle by done.
  destruct (bound_record _ _) as [o'|]; [by destruct (bool_decide _)|done].
Qed.

Lemma get_defaults_options (env : environ) (p : t) :
  options (get_defaults env p).2 = options p.
Proof.
  destruct (get_defaults_shape env p) as [->|[kw ->]];
    [done|apply ensure_object_options].
Qed.

Lemma validation_options (env : environ) (p : t) :
  options ((_ <~ check_required env ;; _ <~ get_defaults env ;; ret tt) p).2
  = options p.
Proof.
  unfold bind at 1, check_required.
  destruct (missing_opts env (options p)); [|done].
  unfold bind, ret. pose proof (get_defaults_options env p) as H.
  by destruct (get_defaults env p) as [[d|e] q].
Qed.

(** C3.  When LOG_URI does not resolve and LOG_URI_TEMPLATE resolves to a
    template made of text without braces and of the placeholders {region}
    and {pipeline_name}, the construction writes into the resolver, under
    LOG_URI, the template with the region and the pipeline name substituted
    for the placeholders.  It does so before the validation, which therefore
    does not count LOG_URI as missing, and whether or not the validation
    succeeds; LOG_URI then reads as that value in every environment. *)
Theorem log_uri_from_template (env : environ) (h0 : list object) (n u : string)
    (opts : PipelineOptions.t) (desc : option string) (r : string)
    (ps : list piece) :
  PipelineOptions.__contains__ env opts "LOG_URI" = false ->
  PipelineOptions.__getitem__ env opts "LOG_URI_TEMPLATE" = Ok (render ps) ->
  forallb piece_ok ps = true ->
  let p := (__init__ env h0 n u opts desc r).2 in
  options p = PipelineOptions.__setitem__ opts "LOG_URI" (substitute r n ps)
  /\ ~ In "LOG_URI" (missing_opts env (options p))
  /\ forall env' : environ,
      PipelineOptions.get env' (options p) "LOG_URI" = Some (substitute r n ps).
Proof.
  intros Hlog Htmpl Hps p.
  assert (Ho : options p
               = PipelineOptions.__setitem__ opts "LOG_URI" (substitute r n ps)).
  { unfold p, __init__, init_body, bind at 1.
    set (p0 := Pipeline__init__ h0 n u desc r opts).
    assert (Hs : synthesize_log_uri env n r p0
                 = (Ok tt, with_options
                             (PipelineOptions.__setitem__ opts "LOG_URI"
                                (substitute r n ps)) p0)).
    { unfold synthesize_log_uri, bind, option_value, lift. simpl options.
      unfold PipelineOptions.__contains__ at 2. rewrite Hlog, Htmpl.
      cbn [negb andb]. by rewrite (format_render r n ps Hps). }
    rewrite Hs. by rewrite validation_options. }
  assert (Hget : forall env' : environ,
             PipelineOptions.__getitem__ env' (options p) "LOG_URI"
             = Ok (substitute r n ps)).
  { intros env'. apply getitem_explicit. rewrite Ho. simpl.
    apply lookup_insert_eq. }
  split; [exact Ho|]. split.
  - intros [_ Hmiss]%missing_opts_In.
    unfold PipelineOptions.__contains__ in Hmiss. by rewrite Hget in Hmiss.
  - intros env'. unfold PipelineOptions.get. by rewrite Hget.
Qed.

Lemma log_uri_from_template_witness :
  PipelineOptions.get demo_environ (options demo_pipeline) "LOG_URI"
  = Some "us-east-1-demo".
Proof.
  refine (proj2 (proj2 (log_uri_from_template demo_environ [] "demo" "demo-1"
                          demo_options None "us-east-1"
                          [RegionPlaceholder; Lit "-"; PipelineNamePlaceholder]
                          _ _ _)) demo_environ);
    vm_compute; reflexivity.
Defined.

(** ** Configured pipelines *)

(** The hypothesis [configured] of the properties above is what a
    successful construction establishes, and every accessor keeps it. *)
Lemma init_configured (env : environ) (h0 : list object) (n u : string)
    (opts : PipelineOptions.t) (desc : option string) (r : string) (p : t) :
  __init__ env h0 n u opts desc r = (Ok tt, p) -> configured env p.
Proof.
  intros Hinit.
  destruct (init_ok_steps env h0 n u opts desc r p Hinit)
    as (p1 & v1 & v2 & v3 & _ & _ & _ & Hc & _ & _ & _ & ->).
  apply (configured_options env p1); [done| |done].
  apply store_ok_registered, Hc.
Qed.

Lemma configured_at_most_ensure (env : environ) (id : string) (c : cls)
    (r : result loc * t) (p : t) :
  at_most_ensure id c r p -> configured env p -> configured env r.2.
Proof.
  intros [->|[kw ->]] Hc; [done|].
  destruct (ensure_object_post id c kw p (proj1 Hc))
    as (l & p1 & -> & _ & Hok & Ho & _).
  by apply (configured_options env p).
Qed.

Lemma configured_preserved (env : environ) (id : string) (p : t) :
  configured env p ->
  configured env (get_defaults env p).2
  /\ configured env (get_shell_command_activity id p).2
  /\ configured env (get_schedule env id p).2
  /\ configured env (get_ec2_resource env id p).2
  /\ configured env (get_sns_alarm env id p).2
  /\ configured env (get_sns_failure_handler env id p).2.
Proof.
  intros Hc.
  split. { exact (configured_at_most_ensure env _ _ _ _ (get_defaults_shape env p) Hc). }
  split. { exact (configured_at_most_ensure env _ _ _ _
                    (get_shell_command_activity_shape id p) Hc). }
  split.
  { destruct (get_schedule_spec env id p Hc)
      as (l & d & p2 & -> & _ & _ & Hok2 & Ho2 & _).
    apply configured_scheduled. by apply (configured_options env p). }
  split. { exact (configured_at_most_ensure env _ _ _ _
                    (get_ec2_resource_shape env id p) Hc). }
  split. { exact (configured_at_most_ensure env _ _ _ _
                    (get_sns_alarm_shape env id p) Hc). }
  exact (configured_at_most_ensure env _ _ _ _
           (get_sns_failure_handler_shape env id p) Hc).
Qed.

(** * Further properties *)

(** ** The resolver: tables given at construction *)

(** X1.  A key of the options table given at construction reads as the
    table has it, in every environment and whatever the defaults table and
    the prefix are. *)
Theorem explicit_option_wins
    (env env' : environ) (options : gmap string string)
    (defaults : option (gmap string string)) (env_prefix : option string)
    (k v : string) :
  options !! k = Some v ->
  PipelineOptions.__getitem__ env'
    (PipelineOptions.__init__ env (Some options) defaults env_prefix) k = Ok v.
Proof.
  intros Hk. apply getitem_explicit.
  rewrite init_items_lookup. simpl. by rewrite Hk.
Qed.

Lemma explicit_option_wins_witness :
  PipelineOptions.__getitem__ {[ "P_X" := "from_env" ]}
    (PipelineOptions.__init__ {[ "P_X" := "from_env" ]}
       (Some {[ "X" := "given" ]}) (Some {[ "X" := "fallback" ]}) (Some "P")) "X"
  = Ok "given".
Proof.
  apply (explicit_option_wins {[ "P_X" := "from_env" ]} {[ "P_X" := "from_env" ]}
           {[ "X" := "given" ]} (Some {[ "X" := "fallback" ]}) (Some "P") "X" "given").
  vm_compute. reflexivity.
Defined.

(** X2.  A key that neither table has is not stored at construction: each
    read goes to the environment of that moment, gives the variable of the
    prefixed name when it is set and raises KeyError when it is not. *)
Theorem environment_key_read_lazily
    (env env' : environ) (options defaults : option (gmap string string))
    (env_prefix : option string) (k : string) :
  default ∅ options !! k = None ->
  default ∅ defaults !! k = None ->
  PipelineOptions.__getitem__ env'
    (PipelineOptions.__init__ env options defaults env_prefix) k
  = match env' !! env_var_name env_prefix k with
    | Some v => Ok v
    | None => Raise (KeyError k)
    end.
Proof.
  intros Ho Hd. unfold PipelineOptions.__getitem__, PipelineOptions._getenv.
  rewrite init_items_lookup, Ho, Hd, init_env_prefix.
  by destruct (env' !! env_var_name env_prefix k).
Qed.

Lemma environment_key_read_lazily_witness :
  PipelineOptions.__getitem__ {[ "P_X" := "later" ]}
    (PipelineOptions.__init__ ∅ None None (Some "P")) "X" = Ok "later".
Proof.
  etransitivity;
    [apply (environment_key_read_lazily ∅ {[ "P_X" := "later" ]} None None
              (Some "P") "X")|];
    vm_compute; reflexivity.
Defined.

(** ** The command line of [main] *)

Lemma partition1_render (k v : string) :
  Py.has_char "=" k = false ->
  Main.partition1 "=" (k ++ "=" ++ v) = (k, Some v).
Proof.
  induction k as [|c k IH]; intros Hk; [reflexivity|].
  cbn [Py.has_char] in Hk. apply orb_false_elim in Hk as [Hc Hk].
  rewrite string_app_cons. cbn [Main.partition1].
  rewrite Ascii.eqb_sym, Hc, (IH Hk). reflexivity.
Qed.

Lemma partition1_none (s : string) :
  Py.has_char "=" s = false -> Main.partition1 "=" s = (s, None).
Proof.
  induction s as [|c s IH]; intros Hs; [reflexivity|].
  cbn [Py.has_char] in Hs. apply orb_false_elim in Hs as [Hc Hs].
  cbn [Main.partition1]. rewrite Ascii.eqb_sym, Hc, (IH Hs). reflexivity.
Qed.

Lemma partition1_some (s : string) :
  Py.has_char "=" s = true ->
  exists k v, Main.partition1 "=" s = (k, Some v)
              /\ s = k ++ "=" ++ v /\ Py.has_char "=" k = false.
Proof.
  induction s as [|c s IH]; intros Hs; [discriminate|].
  cbn [Py.has_char] in Hs. cbn [Main.partition1].
  destruct (Ascii.eqb_spec c "=") as [->|Hne].
  - exists "", s. repeat split.
  - rewrite Ascii.eqb_sym in Hs.
    destruct (Ascii.eqb_spec c "=") as [|_]; [done|]. simpl in Hs.
    destruct (IH Hs) as (k & v & Hp & -> & Hk). rewrite Hp.
    exists (String c k), v. repeat split.
    cbn [Py.has_char]. rewrite Hk, Ascii.eqb_sym.
    by destruct (Ascii.eqb_spec c "=").
Qed.

Lemma option_error_message (opt : string) :
  Py.format Main.option_error_template [opt] []
  = Ok ("Incorrectly formatted option '" ++ opt ++ "'.  Use KEY=VALUE format").
Proof. reflexivity. Qed.

Lemma parse_options_rendered (kvs : list (string * string))
    (options : gmap string string) :
  Forall (fun kv => Py.has_char "=" kv.1 = false) kvs ->
  Main.parse_options (map render_option kvs) options
  = Ok (fold_left (fun m kv => <[kv.1:=kv.2]> m) kvs options).
Proof.
  intros Hall. revert options.
  induction Hall as [|[k v] kvs Hk _ IH]; intros options; [reflexivity|].
  simpl in Hk. cbn [map Main.parse_options fold_left].
  unfold Main.split1, render_option. cbn [fst snd].
  rewrite (partition1_render k v Hk). apply IH.
Qed.

Lemma fold_insert_other (post : list (string * string))
    (m : gmap string string) (k : string) :
  Forall (fun kv : string * string => kv.1 <> k) post ->
  fold_left (fun m kv => <[kv.1:=kv.2]> m) post m !! k = m !! k.
Proof.
  intros Hpost. revert m.
  induction Hpost as [|kv post Hkv _ IH]; intros m; [reflexivity|].
  cbn [fold_left]. rewrite IH. by apply lookup_insert_ne.
Qed.

(** X3.  Options written KEY=VALUE, with keys that have no equals sign, are
    read back as written: the value is everything after the first equals
    sign (it may hold further ones), and of two options for one key the
    later one stays. *)
Theorem parse_options_round_trip (kvs : list (string * string))
    (options : gmap string string) :
  Forall (fun kv => Py.has_char "=" kv.1 = false) kvs ->
  exists m,
    Main.parse_options (map render_option kvs) options = Ok m
    /\ m = fold_left (fun m kv => <[kv.1:=kv.2]> m) kvs options
    /\ forall pre k v post,
        kvs = (pre ++ (k, v) :: post)%list ->
        Forall (fun kv : string * string => kv.1 <> k) post ->
        m !! k = Some v.
Proof.
  intros Hkeys. eexists. split; [by apply parse_options_rendered|].
  split; [reflexivity|].
  intros pre k v post -> Hpost.
  rewrite fold_left_app. cbn [fold_left fst snd].
  rewrite (fold_insert_other post _ k Hpost). apply lookup_insert_eq.
Qed.

Lemma parse_options_round_trip_witness :
  exists m,
    Main.parse_options ["A=1"; "URL=http://h/?x=y"; "A=2"] ∅ = Ok m
    /\ m !! "A" = Some "2"
    /\ m !! "URL" = Some "http://h/?x=y".
Proof.
  destruct (parse_options_round_trip
              [("A", "1"); ("URL", "http://h/?x=y"); ("A", "2")] ∅
              ltac:(repeat constructor))
    as (m & Hparse & _ & Hlast).
  exists m. split; [exact Hparse|]. split.
  - apply (Hlast [("A", "1"); ("URL", "http://h/?x=y")] "A" "2" []);
      [reflexivity|constructor].
  - apply (Hlast [("A", "1")] "URL" "http://h/?x=y" [("A", "2")]);
      [reflexivity|repeat constructor; discriminate].
Defined.

(** X4.  The first option without an equals sign stops the parsing with a
    ValueError whose message quotes that option, whatever follows it. *)
Theorem parse_options_malformed (pre post : list string) (bad : string)
    (options : gmap string string) :
  Forall (fun o => Py.has_char "=" o = true) pre ->
  Py.has_char "=" bad = false ->
  Main.parse_options (pre ++ bad :: post) options
  = Raise (ValueError
             ("Incorrectly formatted option '" ++ bad ++ "'.  Use KEY=VALUE format")).
Proof.
  intros Hpre Hbad. revert options.
  induction Hpre as [|o pre Ho _ IH]; intros options.
  - cbn [app Main.parse_options]. unfold Main.split1.
    rewrite (partition1_none bad Hbad). by rewrite option_error_message.
  - cbn [app Main.parse_options]. unfold Main.split1.
    destruct (partition1_some o Ho) as (k & v & -> & _ & _). apply IH.
Qed.

Lemma parse_options_malformed_witness :
  Main.parse_options ["A=1"; "oops"; "B=2"] ∅
  = Raise (ValueError "Incorrectly formatted option 'oops'.  Use KEY=VALUE format").
Proof.
  apply (parse_options_malformed ["A=1"] ["B=2"] "oops" ∅).
  - repeat constructor.
  - reflexivity.
Defined.

(** ** The resolver [main] builds *)

Lemma merge_step_absent (k : string) (post : list (gmap string string))
    (d : gmap string string) :
  Forall (fun cfg : gmap string string => cfg !! k = None) post ->
  fold_left (fun defaults cfg => PipelineOptions.update cfg defaults) post d !! k
  = d !! k.
Proof.
  intros Hpost. revert d.
  induction Hpost as [|cfg post Hcfg _ IH]; intros d; [reflexivity|].
  cbn [fold_left]. rewrite IH. unfold PipelineOptions.update.
  by apply lookup_union_r.
Qed.

(** X5.  Of the config files that give a key, the last one on the command
    line decides; a key that no file gives is not a default. *)
Theorem merge_configs_last_wins (pre post : list (gmap string string))
    (cfg : gmap string string) (k : string) :
  Forall (fun c : gmap string string => c !! k = None) post ->
  Main.merge_configs (pre ++ cfg :: post) !! k
  = match cfg !! k with
    | Some v => Some v
    | None => Main.merge_configs pre !! k
    end
  /\ (cfg !! k = None ->
      Forall (fun c : gmap string string => c !! k = None) pre ->
      Main.merge_configs (pre ++ cfg :: post) !! k = None).
Proof.
  intros Hpost.
  assert (Heq : Main.merge_configs (pre ++ cfg :: post) !! k
                = match cfg !! k with
                  | Some v => Some v
                  | None => Main.merge_configs pre !! k
                  end).
  { unfold Main.merge_configs. rewrite fold_left_app. cbn [fold_left].
    rewrite (merge_step_absent k post _ Hpost). unfold PipelineOptions.update.
    destruct (cfg !! k) as [v|] eqn:Hk.
    - by apply lookup_union_Some_l.
    - by apply lookup_union_r. }
  split; [exact Heq|]. intros Hk Hpre. rewrite Heq, Hk.
  unfold Main.merge_configs. rewrite (merge_step_absent k pre ∅ Hpre).
  apply lookup_empty.
Qed.

Lemma merge_configs_last_wins_witness :
  Main.merge_configs
    ([{[ "EC2_AMI" := "ami-old" ]}] ++ {[ "EC2_AMI" := "ami-new" ]}
       :: [{[ "EC2_KEYPAIR" := "k" ]}]) !! "EC2_AMI"
  = Some "ami-new".
Proof.
  refine (eq_trans
            (proj1 (merge_configs_last_wins [{[ "EC2_AMI" := "ami-old" ]}]
                      [{[ "EC2_KEYPAIR" := "k" ]}] {[ "EC2_AMI" := "ami-new" ]}
                      "EC2_AMI" _)) _).
  - repeat constructor.
  - vm_compute. reflexivity.
Defined.

(** X6.  How [main] resolves a key: an option of the command line first;
    else, when a config file gives the key, the environment variable of the
    prefixed name as it was when [main] started and, without one, the
    value of the config file; else the environment of the moment of the
    read; else KeyError. *)
Theorem main_precedence (env env' : environ) (a : Main.args)
    (env_prefix : string) (kvs : list (string * string)) (k : string) :
  Main.arg_option a = map render_option kvs ->
  Forall (fun kv => Py.has_char "=" kv.1 = false) kvs ->
  exists r,
    Main.build_options env a env_prefix = Ok r
    /\ PipelineOptions.__getitem__ env' r k
       = match fold_left (fun m kv => <[kv.1:=kv.2]> m) kvs (∅ : gmap string string) !! k with
         | Some v => Ok v
         | None =>
             match Main.merge_configs (Main.arg_config a) !! k with
             | Some d =>
                 Ok (default d (env !! env_var_name (Some env_prefix) k))
             | None =>
                 match env' !! env_var_name (Some env_prefix) k with
                 | Some v => Ok v
                 | None => Raise (KeyError k)
                 end
             end
         end.
Proof.
  intros Hopts Hkeys. unfold Main.build_options.
  rewrite Hopts, (parse_options_rendered kvs ∅ Hkeys).
  eexists. split; [reflexivity|].
  unfold PipelineOptions.__getitem__, PipelineOptions._getenv.
  rewrite init_items_lookup, init_env_prefix. cbn [default from_option id].
  destruct (fold_left _ kvs _ !! k); [done|].
  destruct (Main.merge_configs (Main.arg_config a) !! k); [done|].
  by destruct (env' !! env_var_name (Some env_prefix) k).
Qed.

Lemma main_precedence_witness :
  exists r,
    Main.build_options {[ "PIPELINE_EC2_AMI" := "ami-env" ]}
      (Main.Args "demo" None None "us-west-2" ["EC2_KEYPAIR=cli"]
         [{[ "EC2_AMI" := "ami-file" ]}; {[ "EC2_KEYPAIR" := "file" ]}])
      "PIPELINE" = Ok r
    /\ PipelineOptions.__getitem__ ∅ r "EC2_AMI"
       = match fold_left (fun m kv => <[kv.1:=kv.2]> m) [("EC2_KEYPAIR", "cli")]
                 (∅ : gmap string string) !! "EC2_AMI" with
         | Some v => Ok v
         | None =>
             match Main.merge_configs
                     [{[ "EC2_AMI" := "ami-file" ]}; {[ "EC2_KEYPAIR" := "file" ]}]
                   !! "EC2_AMI" with
             | Some d =>
                 Ok (default d
                       (({[ "PIPELINE_EC2_AMI" := "ami-env" ]} : environ)
                          !! env_var_name (Some "PIPELINE") "EC2_AMI"))
             | None =>
                 match (∅ : environ) !! env_var_name (Some "PIPELINE") "EC2_AMI" with
                 | Some v => Ok v
                 | None => Raise (KeyError "EC2_AMI")
                 end
             end
         end.
Proof.
  apply (main_precedence {[ "PIPELINE_EC2_AMI" := "ami-env" ]} ∅
           (Main.Args "demo" None None "us-west-2" ["EC2_KEYPAIR=cli"]
              [{[ "EC2_AMI" := "ami-file" ]}; {[ "EC2_KEYPAIR" := "file" ]}])
           "PIPELINE" [("EC2_KEYPAIR", "cli")] "EC2_AMI").
  - reflexivity.
  - repeat constructor.
Defined.

Example main_precedence_example :
  exists r,
    Main.build_options {[ "PIPELINE_EC2_AMI" := "ami-env" ]}
      (Main.Args "demo" None None "us-west-2" ["EC2_KEYPAIR=cli"]
         [{[ "EC2_AMI" := "ami-file" ]}; {[ "EC2_KEYPAIR" := "file" ]}])
      "PIPELINE" = Ok r
    /\ PipelineOptions.__getitem__ ∅ r "EC2_AMI" = Ok "ami-env"
    /\ PipelineOptions.__getitem__ ∅ r "EC2_KEYPAIR" = Ok "cli".
Proof. eexists. split; [reflexivity|]. vm_compute. split; reflexivity. Qed.

(** ** The pipeline [main] hands to [setup_func] *)

Lemma init_settings (env : environ) (h0 : list object) (n u : string)
    (opts : PipelineOptions.t) (desc : option string) (r : string) (p : t) :
  __init__ env h0 n u opts desc r = (Ok tt, p) ->
  name p = n /\ unique_id p = u /\ description p = desc /\ region_name p = r.
Proof.
  intros Hinit.
  destruct (init_ok_steps env h0 n u opts desc r p Hinit)
    as (p1 & v1 & v2 & v3 & Hs & _ & _ & _ & _ & _ & _ & ->).
  destruct (synthesize_log_uri_options env n r (Pipeline__init__ h0 n u desc r opts))
    as [o Ho].
  rewrite Hs in Ho. simpl in Ho. subst p1. repeat split.
Qed.

Lemma init_one_default (env : environ) (h0 : list object) (n u : string)
    (opts : PipelineOptions.t) (desc : option string) (r : string) (p : t) :
  __init__ env h0 n u opts desc r = (Ok tt, p) -> one_default p.
Proof.
  intros Hinit.
  destruct (init_ok_steps env h0 n u opts desc r p Hinit)
    as (p1 & v1 & v2 & v3 & _ & Hcoll & _ & Hc & _ & _ & _ & ->).
  split; [apply store_ok_registered, Hc|].
  unfold records_with_id, registered; simpl. rewrite Hcoll; simpl.
  by rewrite has_id_fresh.
Qed.

(** X7.  When [main] gets as far as the end of [setup_func], that function
    was called once, on a configured pipeline whose registry holds exactly
    one Default record and whose name, region, description and unique id
    are those of the command line; the unique id defaults to the name, a
    dash and the time stamp, the description to the empty string. *)
Theorem prepare_calls_setup_on_configured
    (env : environ) (h0 : list object) (a : Main.args) (stamp env_prefix : string)
    (setup_func : t -> result unit * t) (p' : t) :
  Main.prepare env h0 a stamp env_prefix setup_func = Ok p' ->
  exists p,
    setup_func p = (Ok tt, p')
    /\ configured env p
    /\ one_default p
    /\ name p = Main.arg_name a
    /\ region_name p = Main.arg_aws_region a
    /\ description p = Some (Main.str_or (Main.arg_description a) "")
    /\ unique_id p
       = Main.str_or (Main.arg_unique_id a) (Main.arg_name a ++ "-" ++ stamp).
Proof.
  unfold Main.prepare. intros Hprep.
  destruct (Main.build_options env a env_prefix) as [r|e]; [|done].
  destruct (__init__ env h0 _ _ r _ _) as [[[]|e] p] eqn:Hinit; [|done].
  destruct (setup_func p) as [[[]|e] q] eqn:Hsetup; [|done].
  injection Hprep as <-. exists p.
  destruct (init_settings _ _ _ _ _ _ _ _ Hinit) as (Hn & Hu & Hd & Hr).
  split; [done|]. split; [by eapply init_configured|].
  split; [by eapply init_one_default|].
  by repeat split.
Qed.

Lemma prepare_calls_setup_on_configured_witness :
  exists p p',
    Main.prepare demo_environ [] demo_args "20150101000000" "PIPELINE"
      hello_world_setup = Ok p'
    /\ hello_world_setup p = (Ok tt, p')
    /\ one_default p
    /\ unique_id p = "demo-20150101000000".
Proof.
  destruct (Main.prepare demo_environ [] demo_args "20150101000000" "PIPELINE"
              hello_world_setup) as [p'|e] eqn:Hprep;
    [|vm_compute in Hprep; discriminate Hprep].
  destruct (prepare_calls_setup_on_configured _ _ _ _ _ _ _ Hprep)
    as (p & Hsetup & _ & Hone & _ & _ & _ & Hu).
  clear Hprep. exists p, p'.
  split; [reflexivity|]. split; [exact Hsetup|]. split; [exact Hone|].
  rewrite Hu. vm_compute. reflexivity.
Defined.

(** ** Records created for an unbound id *)

Lemma fresh_record (id : string) (c : cls) (kwargs : list (string * value)) (p : t) :
  store_ok p ->
  _get_object p id = None ->
  _ensure_object id c kwargs p
  = (Ok (length (heap p)), registered (new_object c id kwargs) p)
  /\ cls_of (registered (new_object c id kwargs) p) (length (heap p)) = Some c
  /\ (forall a, attr_of (registered (new_object c id kwargs) p) (length (heap p)) a
                = (list_to_map kwargs : gmap string value) !! a)
  /\ collection (registered (new_object c id kwargs) p)
     = (collection p ++ [length (heap p)])%list
  /\ _get_object (registered (new_object c id kwargs) p) id = Some (length (heap p)).
Proof.
  intros Hok Hnone. split; [by apply ensure_object_fresh|].
  unfold cls_of, attr_of, registered; simpl.
  rewrite list_lookup_middle by done. simpl.
  split; [done|]. split; [done|]. split; [done|].
  apply (get_object_registered_same (new_object c id kwargs) p Hok Hnone).
Qed.

(** X8.  Called with an unbound id in a configured pipeline,
    [get_ec2_resource] appends one record to the registry and binds the id
    to it: an Ec2Resource whose name is the id, which terminates on task
    failure, retries all on resource failure, has one retry and one hour
    before termination, and whose image, key pair, subnet and security group
    are what the resolver gives for EC2_AMI, EC2_KEYPAIR, EC2_SUBNET and
    EC2_SECURITY_GROUP. *)
Theorem ec2_resource_presets (env : environ) (id : string) (p : t) :
  configured env p ->
  _get_object p id = None ->
  exists l p1 ami keypair subnet group,
    get_ec2_resource env id p = (Ok l, p1)
    /\ collection p1 = (collection p ++ [l])%list
    /\ _get_object p1 id = Some l
    /\ cls_of p1 l = Some Ec2Resource
    /\ attr_of p1 l "name" = Some (VStr id)
    /\ attr_of p1 l "actionOnTaskFailure"
       = Some (VKeyword actionOnTaskFailure_terminate)
    /\ attr_of p1 l "actionOnResourceFailure"
       = Some (VKeyword actionOnResourceFailure_retryAll)
    /\ attr_of p1 l "maximumRetries" = Some (VInt 1)
    /\ attr_of p1 l "terminateAfter" = Some (VStr "1 hours")
    /\ PipelineOptions.__getitem__ env (options p) "EC2_AMI" = Ok ami
    /\ attr_of p1 l "imageId" = Some (VStr ami)
    /\ PipelineOptions.__getitem__ env (options p) "EC2_KEYPAIR" = Ok keypair
    /\ attr_of p1 l "keyPair" = Some (VStr keypair)
    /\ PipelineOptions.__getitem__ env (options p) "EC2_SUBNET" = Ok subnet
    /\ attr_of p1 l "subnetId" = Some (VStr subnet)
    /\ PipelineOptions.__getitem__ env (options p) "EC2_SECURITY_GROUP" = Ok group
    /\ attr_of p1 l "securityGroupIds" = Some (VStr group).
Proof.
  intros Hc Hnone. required "EC2_AMI". required "EC2_KEYPAIR".
  required "EC2_SUBNET". required "EC2_SECURITY_GROUP".
  eexists _, _, v, v0, v1, v2.
  unfold get_ec2_resource, bind, option_value. rewrite Hv, Hv0, Hv1, Hv2.
  match goal with
  | |- _ensure_object _ _ ?kw _ = _ /\ _ =>
      destruct (fresh_record id Ec2Resource kw p (proj1 Hc) Hnone)
        as (He & Hcls & Hattr & Hcoll & Hget)
  end.
  split; [exact He|]. split; [exact Hcoll|]. split; [exact Hget|].
  split; [exact Hcls|].
  rewrite !Hattr. clear. repeat split; vm_compute; reflexivity.
Qed.

Lemma ec2_resource_presets_witness :
  exists l p1,
    get_ec2_resource demo_environ "Node" demo_pipeline = (Ok l, p1)
    /\ cls_of p1 l = Some Ec2Resource
    /\ attr_of p1 l "terminateAfter" = Some (VStr "1 hours").
Proof.
  destruct (ec2_resource_presets demo_environ "Node" demo_pipeline
              ltac:(solve_demo_configured) ltac:(vm_compute; reflexivity))
    as (l & p1 & _ & _ & _ & _ & He & _ & _ & Hcls & _ & _ & _ & _ & Hterm & _).
  exists l, p1. split; [exact He|]. split; [exact Hcls|exact Hterm].
Defined.

(** X9.  Called with an unbound id, [get_shell_command_activity] appends
    one record and binds the id to it: a ShellCommandActivity whose name is
    the id and which has no retry.  No option is read, so this needs no
    configuration. *)
Theorem shell_command_activity_presets (id : string) (p : t) :
  store_ok p ->
  _get_object p id = None ->
  exists l p1,
    get_shell_command_activity id p = (Ok l, p1)
    /\ collection p1 = (collection p ++ [l])%list
    /\ _get_object p1 id = Some l
    /\ cls_of p1 l = Some ShellCommandActivity
    /\ attr_of p1 l "name" = Some (VStr id)
    /\ attr_of p1 l "maximumRetries" = Some (VInt 0).
Proof.
  intros Hok Hnone.
  destruct (fresh_record id ShellCommandActivity
              [("name", VStr id); ("maximumRetries", VInt 0)] p Hok Hnone)
    as (He & Hcls & Hattr & Hcoll & Hget).
  eexists _, _. split; [exact He|]. split; [exact Hcoll|]. split; [exact Hget|].
  split; [exact Hcls|]. rewrite !Hattr.
  split; vm_compute; reflexivity.
Qed.

Lemma shell_command_activity_presets_witness :
  exists l p1,
    get_shell_command_activity "HelloWorldActivity" demo_pipeline = (Ok l, p1)
    /\ attr_of p1 l "maximumRetries" = Some (VInt 0).
Proof.
  destruct (shell_command_activity_presets "HelloWorldActivity" demo_pipeline
              ltac:(unfold store_ok; vm_compute; repeat constructor)
              ltac:(vm_compute; reflexivity))
    as (l & p1 & He & _ & _ & _ & _ & Hretries).
  exists l, p1. split; [exact He|exact Hretries].
Defined.

(** The two texts of the failure handler, for every pipeline name and
    region: the name and the region are put in as they are, and the doubled
    braces of the source become the single braces of the expressions that
    the service evaluates. *)
Lemma failure_subject (n : string) :
  Py.format "{} FAILED on {}" [n; date_fmt] []
  = Ok (n ++ " FAILED on #{format(node.@scheduledStartTime,'YYYY-MM-dd')}").
Proof. vm_compute. reflexivity. Qed.

Lemma failure_message (n r : string) :
  Py.format msg_body_template [] [("name", n); ("region", r)]
  = Ok ("Pipeline: " ++ n ++ nl
        ++ "Status: #{node.@status}" ++ nl
        ++ "Scheduled Time: #{node.@scheduledStartTime}" ++ nl
        ++ nl
        ++ "Pipeline dashboard:" ++ nl
        ++ "https://console.aws.amazon.com/datapipeline/home?region=" ++ r
        ++ "#ExecutionDetailsPlace:pipelineId=#{@pipelineId}&show=latest" ++ nl
        ++ "        ").
Proof. vm_compute. reflexivity. Qed.

(** X10.  Called with an unbound id in a configured pipeline,
    [get_sns_failure_handler] appends one SnsAlarm and binds the id to it.
    Its role is the resolver's PIPELINE_ROLE; its subject is the pipeline
    name followed by the text FAILED on and the date expression; its message
    shows the name, the status and scheduled-time expressions and the
    dashboard address of the region.  The name and the region are copied
    as they are, braces included, for every name and region. *)
Theorem sns_failure_handler_presets (env : environ) (id : string) (p : t) :
  configured env p ->
  _get_object p id = None ->
  exists l p1 role,
    get_sns_failure_handler env id p = (Ok l, p1)
    /\ collection p1 = (collection p ++ [l])%list
    /\ _get_object p1 id = Some l
    /\ cls_of p1 l = Some SnsAlarm
    /\ attr_of p1 l "name" = Some (VStr id)
    /\ PipelineOptions.__getitem__ env (options p) "PIPELINE_ROLE" = Ok role
    /\ attr_of p1 l "role" = Some (VStr role)
    /\ attr_of p1 l "subject"
       = Some (VStr (name p
                     ++ " FAILED on #{format(node.@scheduledStartTime,'YYYY-MM-dd')}"))
    /\ attr_of p1 l "message"
       = Some (VStr ("Pipeline: " ++ name p ++ nl
                     ++ "Status: #{node.@status}" ++ nl
                     ++ "Scheduled Time: #{node.@scheduledStartTime}" ++ nl
                     ++ nl
                     ++ "Pipeline dashboard:" ++ nl
                     ++ "https://console.aws.amazon.com/datapipeline/home?region="
                     ++ region_name p
                     ++ "#ExecutionDetailsPlace:pipelineId=#{@pipelineId}&show=latest"
                     ++ nl ++ "        "))
    /\ attr_of p1 l "topicArn" = None.
Proof.
  intros Hc Hnone. required "PIPELINE_ROLE".
  eexists _, _, v.
  unfold get_sns_failure_handler, bind, option_value, lift.
  rewrite failure_message, Hv, failure_subject.
  match goal with
  | |- _ensure_object _ _ ?kw _ = _ /\ _ =>
      destruct (fresh_record id SnsAlarm kw p (proj1 Hc) Hnone)
        as (He & Hcls & Hattr & Hcoll & Hget)
  end.
  split; [exact He|]. split; [exact Hcoll|]. split; [exact Hget|].
  split; [exact Hcls|]. rewrite !Hattr.
  split; [vm_compute; reflexivity|]. split; [reflexivity|].
  repeat split; vm_compute; reflexivity.
Qed.

Lemma sns_failure_handler_presets_witness :
  exists l p1,
    get_sns_failure_handler demo_environ "OnError" demo_pipeline = (Ok l, p1)
    /\ attr_of p1 l "subject"
       = Some (VStr "demo FAILED on #{format(node.@scheduledStartTime,'YYYY-MM-dd')}").
Proof.
  destruct (sns_failure_handler_presets demo_environ "OnError" demo_pipeline
              ltac:(solve_demo_configured) ltac:(vm_compute; reflexivity))
    as (l & p1 & role & He & _ & _ & _ & _ & _ & _ & Hsubj & _).
  exists l, p1. split; [exact He|exact Hsubj].
Defined.

(** X11.  Called with an unbound id in a configured pipeline,
    [get_sns_alarm] appends one SnsAlarm and binds the id to it; its name
    is the id and its role is the resolver's PIPELINE_ROLE. *)
Theorem sns_alarm_presets (env : environ) (id : string) (p : t) :
  configured env p ->
  _get_object p id = None ->
  exists l p1 role,
    get_sns_alarm env id p = (Ok l, p1)
    /\ collection p1 = (collection p ++ [l])%list
    /\ _get_object p1 id = Some l
    /\ cls_of p1 l = Some SnsAlarm
    /\ attr_of p1 l "name" = Some (VStr id)
    /\ PipelineOptions.__getitem__ env (options p) "PIPELINE_ROLE" = Ok role
    /\ attr_of p1 l "role" = Some (VStr role).
Proof.
  intros Hc Hnone. required "PIPELINE_ROLE".
  eexists _, _, v.
  unfold get_sns_alarm, bind, option_value. rewrite Hv.
  destruct (fresh_record id SnsAlarm [("name", VStr id); ("role", VStr v)] p
              (proj1 Hc) Hnone) as (He & Hcls & Hattr & Hcoll & Hget).
  split; [exact He|]. split; [exact Hcoll|]. split; [exact Hget|].
  split; [exact Hcls|]. rewrite !Hattr.
  split; [vm_compute; reflexivity|]. split; [reflexivity|].
  vm_compute; reflexivity.
Qed.

Lemma sns_alarm_presets_witness :
  exists l p1,
    get_sns_alarm demo_environ "Alarm" demo_pipeline = (Ok l, p1)
    /\ attr_of p1 l "role" = Some (VStr "role").
Proof.
  destruct (sns_alarm_presets demo_environ "Alarm" demo_pipeline
              ltac:(solve_demo_configured) ltac:(vm_compute; reflexivity))
    as (l & p1 & role & He & _ & _ & _ & _ & Hrole & Hattr).
  exists l, p1. split; [exact He|].
  vm_compute in Hrole. injection Hrole as <-. exact Hattr.
Defined.

Lemma attr_of_scheduled_other (d l x : loc) (p : t) (a : string) :
  d <> x -> attr_of (scheduled d l p) x a = attr_of p x a.
Proof.
  intros Hne. unfold attr_of, scheduled, set_attr; simpl.
  by rewrite !list_lookup_alter_ne.
Qed.

(** X12.  Called with an unbound id in a configured pipeline that has its
    Default record, [get_schedule] appends exactly one record, a Schedule
    whose name is the id, binds the id to it, and points the Default record
    at it; the Default record stays the record it was. *)
Theorem schedule_created (env : environ) (id : string) (p : t) (d : loc) :
  configured env p ->
  _get_object p "Default" = Some d ->
  _get_object p id = None ->
  exists l p1,
    get_schedule env id p = (Ok l, p1)
    /\ l <> d
    /\ collection p1 = (collection p ++ [l])%list
    /\ _get_object p1 id = Some l
    /\ _get_object p1 "Default" = Some d
    /\ cls_of p1 l = Some Schedule
    /\ attr_of p1 l "name" = Some (VStr id)
    /\ attr_of p1 d "schedule" = Some (VRef l)
    /\ attr_of p1 d "scheduleType" = Some (VKeyword scheduleType_cron).
Proof.
  intros Hc Hd Hnone. pose proof Hc as [Hok _].
  destruct (fresh_record id Schedule [("name", VStr id)] p Hok Hnone)
    as (He & Hcls & Hattr & Hcoll & Hget).
  set (l := length (heap p)) in *.
  set (p1 := registered (new_object Schedule id [("name", VStr id)]) p) in *.
  assert (Hok1 : store_ok p1) by (by apply store_ok_registered).
  assert (Hc1 : configured env p1) by (by apply (configured_options env p)).
  assert (Hd1 : _get_object p1 "Default" = Some d).
  { unfold p1. rewrite get_object_registered_other; [done|done|].
    simpl. intros ->. congruence. }
  destruct (get_object_valid p "Default" d Hd) as (_ & o & Ho & _).
  assert (Hld : l <> d).
  { apply lookup_lt_Some in Ho. unfold l. lia. }
  exists l, (scheduled d l p1). split.
  { unfold get_schedule, bind at 1. rewrite He.
    unfold bind at 1. rewrite (get_defaults_found env p1 d Hc1 Hd1). reflexivity. }
  split; [exact Hld|]. split; [exact Hcoll|].
  rewrite !get_object_scheduled, cls_of_scheduled.
  rewrite (attr_of_scheduled_other d l l p1 "name") by done.
  split; [exact Hget|]. split; [exact Hd1|]. split; [exact Hcls|].
  split; [rewrite Hattr; vm_compute; reflexivity|].
  destruct (get_object_valid p1 "Default" d Hd1) as (_ & o1 & Ho1 & _).
  destruct (scheduled_attrs d l p1 o1 Ho1) as [Ht Hr]. by split.
Qed.

Lemma schedule_created_witness :
  exists l p1,
    get_schedule demo_environ "S1" demo_pipeline = (Ok l, p1)
    /\ cls_of p1 l = Some Schedule
    /\ attr_of p1 0 "schedule" = Some (VRef l).
Proof.
  destruct (schedule_created demo_environ "S1" demo_pipeline 0
              ltac:(solve_demo_configured) ltac:(vm_compute; reflexivity)
              ltac:(vm_compute; reflexivity))
    as (l & p1 & He & _ & _ & _ & _ & Hcls & _ & Hs & _).
  exists l, p1. split; [exact He|]. split; [exact Hcls|exact Hs].
Defined.

(** ** Ids stay unique *)

Lemma records_with_id_registered_same (o : object) (p : t) :
  store_ok p ->
  records_with_id (registered o p) (obj_id o)
  = (records_with_id p (obj_id o) ++ [length (heap p)])%list.
Proof.
  intros Hok. unfold records_with_id, registered; simpl.
  rewrite List.filter_app; simpl. rewrite has_id_fresh.
  rewrite bool_decide_eq_true_2 by done. f_equal.
  apply filter_agree. eapply Forall_impl; [exact Hok|].
  intros l Hl. by apply has_id_alloc.
Qed.

Lemma ids_unique_ensure (id : string) (c : cls) kwargs (p : t) :
  ids_unique p -> ids_unique (_ensure_object id c kwargs p).2.
Proof.
  intros [Hok Huniq].
  destruct (ensure_object_spec id c kwargs p Hok) as [(l & _ & ->)|[Hnone ->]];
    [by split|].
  simpl. split; [by apply store_ok_registered|]. intros id'.
  destruct (decide (id = id')) as [<-|Hne].
  - change id with (obj_id (new_object c id kwargs)) at 2.
    rewrite records_with_id_registered_same by done. simpl.
    rewrite (records_with_id_none p id Hnone). simpl. lia.
  - rewrite records_with_id_registered; [apply Huniq|done|done].
Qed.

Lemma ids_unique_at_most_ensure (id : string) (c : cls) (r : result loc * t) (p : t) :
  at_most_ensure id c r p -> ids_unique p -> ids_unique r.2.
Proof. intros [->|[kw ->]] H; [done|by apply ids_unique_ensure]. Qed.

Lemma ids_unique_get_schedule (env : environ) (id : string) (p : t) :
  ids_unique p -> ids_unique (get_schedule env id p).2.
Proof.
  intros H1. unfold get_schedule, bind at 1.
  pose proof (ids_unique_ensure id Schedule [("name", VStr id)] p H1) as H2.
  destruct (_ensure_object id Schedule _ p) as [[l|e] p1]; [|exact H2].
  unfold bind at 1.
  pose proof (ids_unique_at_most_ensure _ _ _ _ (get_defaults_shape env p1) H2) as H3.
  destruct (get_defaults env p1) as [[d|e] p2]; [|exact H3].
  change (ids_unique (scheduled d l p2)).
  destruct H3 as [Hok Huniq]. split.
  - unfold scheduled. by apply store_ok_set_attr, store_ok_set_attr.
  - intros id'. rewrite records_with_id_scheduled. apply Huniq.
Qed.

Lemma init_ids_unique (env : environ) (h0 : list object) (n u : string)
    (opts : PipelineOptions.t) (desc : option string) (r : string) (p : t) :
  __init__ env h0 n u opts desc r = (Ok tt, p) -> ids_unique p.
Proof.
  intros Hinit.
  destruct (init_ok_steps env h0 n u opts desc r p Hinit)
    as (p1 & v1 & v2 & v3 & _ & Hcoll & _ & Hc & _ & _ & _ & ->).
  split; [apply store_ok_registered, Hc|]. intros id.
  unfold records_with_id, registered; simpl. rewrite Hcoll; simpl.
  destruct (has_id _ id _); simpl; lia.
Qed.

(** X13.  No id is bound twice.  A successful construction leaves a registry
    in which every id belongs to at most one record, and each accessor,
    whatever its outcome, keeps the registry so. *)
Theorem ids_stay_unique (env : environ) :
  (forall h0 n u opts desc r p,
      __init__ env h0 n u opts desc r = (Ok tt, p) -> ids_unique p)
  /\ forall (q : t) (id : string),
      ids_unique q ->
      ids_unique (get_defaults env q).2
      /\ ids_unique (get_shell_command_activity id q).2
      /\ ids_unique (get_schedule env id q).2
      /\ ids_unique (get_ec2_resource env id q).2
      /\ ids_unique (get_sns_alarm env id q).2
      /\ ids_unique (get_sns_failure_handler env id q).2.
Proof.
  split; [intros; by eapply init_ids_unique|].
  intros q id Hq.
  split. { exact (ids_unique_at_most_ensure _ _ _ _ (get_defaults_shape env q) Hq). }
  split. { exact (ids_unique_at_most_ensure _ _ _ _
                    (get_shell_command_activity_shape id q) Hq). }
  split. { by apply ids_unique_get_schedule. }
  split. { exact (ids_unique_at_most_ensure _ _ _ _
                    (get_ec2_resource_shape env id q) Hq). }
  split. { exact (ids_unique_at_most_ensure _ _ _ _
                    (get_sns_alarm_shape env id q) Hq). }
  exact (ids_unique_at_most_ensure _ _ _ _
           (get_sns_failure_handler_shape env id q) Hq).
Qed.

(** ** What the accessors never touch *)

Lemma same_settings_refl (p : t) : same_settings p p.
Proof. by repeat split. Qed.

Lemma same_settings_trans (p q r : t) :
  same_settings p q -> same_settings q r -> same_settings p r.
Proof.
  intros (H1 & H2 & H3 & H4 & H5) (G1 & G2 & G3 & G4 & G5).
  repeat split; congruence.
Qed.

Lemma ensure_object_settings (id : string) (c : cls) kwargs (p : t) :
  same_settings p (_ensure_object id c kwargs p).2.
Proof.
  unfold _ensure_object. destruct (_get_object p id); [apply same_settings_refl|].
  unfold bind, alloc, add, ret. cbn [heap with_heap].
  rewrite list_lookup_middle by done.
  destruct (bound_record _ _) as [o'|];
    [destruct (bool_decide _)|]; by repeat split.
Qed.

Lemma at_most_ensure_settings (id : string) (c : cls) (r : result loc * t) (p : t) :
  at_most_ensure id c r p -> same_settings p r.2.
Proof.
  intros [->|[kw ->]]; [apply same_settings_refl|apply ensure_object_settings].
Qed.

Lemma get_schedule_settings (env : environ) (id : string) (p : t) :
  same_settings p (get_schedule env id p).2.
Proof.
  unfold get_schedule, bind at 1.
  pose proof (ensure_object_settings id Schedule [("name", VStr id)] p) as H1.
  destruct (_ensure_object id Schedule _ p) as [[l|e] p1]; [|exact H1].
  unfold bind at 1.
  pose proof (at_most_ensure_settings _ _ _ _ (get_defaults_shape env p1)) as H2.
  destruct (get_defaults env p1) as [[d|e] p2]; simpl in H2;
    [|exact (same_settings_trans _ _ _ H1 H2)].
  apply (same_settings_trans p p2); [exact (same_settings_trans _ _ _ H1 H2)|].
  by repeat split.
Qed.

(** X14.  No accessor writes to the resolver or changes the name, the
    unique id, the description or the region of the pipeline, whatever the
    state and whatever the outcome. *)
Theorem accessors_keep_settings (env : environ) (id : string) (p : t) :
  same_settings p (get_defaults env p).2
  /\ same_settings p (get_shell_command_activity id p).2
  /\ same_settings p (get_schedule env id p).2
  /\ same_settings p (get_ec2_resource env id p).2
  /\ same_settings p (get_sns_alarm env id p).2
  /\ same_settings p (get_sns_failure_handler env id p).2.
Proof.
  split. { exact (at_most_ensure_settings _ _ _ _ (get_defaults_shape env p)). }
  split. { exact (at_most_ensure_settings _ _ _ _
                    (get_shell_command_activity_shape id p)). }
  split. { apply get_schedule_settings. }
  split. { exact (at_most_ensure_settings _ _ _ _ (get_ec2_resource_shape env id p)). }
  split. { exact (at_most_ensure_settings _ _ _ _ (get_sns_alarm_shape env id p)). }
  exact (at_most_ensure_settings _ _ _ _ (get_sns_failure_handler_shape env id p)).
Qed.

(** ** Different ids *)

(** X15.  Two get-or-create calls with different ids, in a consistent
    registry, return different records, whatever classes are asked for, and
    afterwards each id is bound to the record returned for it. *)
Theorem distinct_ids_distinct_records
    (id1 id2 : string) (c1 c2 : cls) (kw1 kw2 : list (string * value))
    (p p1 p2 : t) (l1 l2 : loc) :
  store_ok p ->
  id1 <> id2 ->
  _ensure_object id1 c1 kw1 p = (Ok l1, p1) ->
  _ensure_object id2 c2 kw2 p1 = (Ok l2, p2) ->
  l1 <> l2
  /\ _get_object p2 id1 = Some l1
  /\ _get_object p2 id2 = Some l2.
Proof.
  intros Hok Hne He1 He2.
  destruct (ensure_object_post id1 c1 kw1 p Hok)
    as (l1' & p1' & He1' & Hg1 & Hok1 & _ & _ & _ & _ & _ & _).
  rewrite He1 in He1'. injection He1' as <- <-.
  destruct (ensure_object_post id2 c2 kw2 p1 Hok1)
    as (l2' & p2' & He2' & Hg2 & _ & _ & _ & _ & Hb2 & _ & _).
  rewrite He2 in He2'. injection He2' as <- <-.
  pose proof (Hb2 id1 l1 Hg1) as Hg1'.
  split; [|by split]. intros ->.
  destruct (get_object_valid p2 id1 l2 Hg1') as (_ & o & Ho & Hid1).
  destruct (get_object_valid p2 id2 l2 Hg2) as (_ & o' & Ho' & Hid2).
  congruence.
Qed.

Lemma distinct_ids_distinct_records_witness :
  _get_object demo_with_activity "Default" = Some 0
  /\ _get_object demo_with_activity "A" = Some 1.
Proof.
  refine (proj2 (distinct_ids_distinct_records "Default" "A"
                   DataPipelineObject ShellCommandActivity
                   [] [("name", VStr "A"); ("maximumRetries", VInt 0)]
                   demo_pipeline demo_pipeline demo_with_activity 0 1 _ _ _ _)).
  - unfold store_ok. vm_compute. repeat constructor.
  - discriminate.
  - vm_compute. reflexivity.
  - vm_compute. reflexivity.
Defined.

(** ** Options that do not resolve any more *)

Lemma getitem_unresolved (env : environ) (o : PipelineOptions.t) (k : string) :
  PipelineOptions.__contains__ env o k = false ->
  PipelineOptions.__getitem__ env o k = Raise (KeyError k).
Proof.
  unfold PipelineOptions.__contains__, PipelineOptions.__getitem__.
  destruct (PipelineOptions._items o !! k); [done|].
  by destruct (PipelineOptions._getenv env o k None).
Qed.

Lemma getitem_resolved (env : environ) (o : PipelineOptions.t) (k : string) :
  PipelineOptions.__contains__ env o k = true ->
  exists v, PipelineOptions.__getitem__ env o k = Ok v.
Proof.
  unfold PipelineOptions.__contains__.
  destruct (PipelineOptions.__getitem__ env o k); [eauto|done].
Qed.

Ltac scan_options env p :=
  unfold first_unresolved; cbn [find];
  repeat
    match goal with
    | |- context [PipelineOptions.__contains__ env (options p) ?k] =>
        let Hk := fresh "Hk" in
        destruct (PipelineOptions.__contains__ env (options p) k) eqn:Hk;
        cbn [negb];
        [ let v := fresh "v" in
          let Hv := fresh "Hv" in
          destruct (getitem_resolved env (options p) k Hk) as [v Hv]; rewrite Hv
        | rewrite (getitem_unresolved env (options p) k Hk) ]
    end.

Lemma get_defaults_unresolved (env : environ) (p : t) (k : string) :
  first_unresolved env p ["LOG_URI"; "PIPELINE_ROLE"; "PIPELINE_RESOURCE_ROLE"]
  = Some k ->
  get_defaults env p = (Raise (KeyError k), p).
Proof.
  unfold get_defaults, bind, option_value. scan_options env p;
    intros [= <-] || discriminate; reflexivity.
Qed.

(** X16.  The options an accessor needs are read in the order of the call,
    before the registry is looked at.  The first one that does not resolve
    makes the accessor raise KeyError with that key, also when the id is
    already bound, and the pipeline is left as it was. *)
Theorem unresolved_option_raises (env : environ) (id : string) (p : t) (k : string) :
  (first_unresolved env p ["LOG_URI"; "PIPELINE_ROLE"; "PIPELINE_RESOURCE_ROLE"]
   = Some k ->
   get_defaults env p = (Raise (KeyError k), p))
  /\ (first_unresolved env p
        ["EC2_AMI"; "EC2_KEYPAIR"; "EC2_SUBNET"; "EC2_SECURITY_GROUP"] = Some k ->
      get_ec2_resource env id p = (Raise (KeyError k), p))
  /\ (first_unresolved env p ["PIPELINE_ROLE"] = Some k ->
      get_sns_alarm env id p = (Raise (KeyError k), p)
      /\ get_sns_failure_handler env id p = (Raise (KeyError k), p)).
Proof.
  split; [|split].
  - apply get_defaults_unresolved.
  - unfold get_ec2_resource, bind, option_value. scan_options env p;
      intros [= <-] || discriminate; reflexivity.
  - unfold get_sns_alarm, get_sns_failure_handler, bind, option_value, lift.
    rewrite failure_message. scan_options env p;
      intros [= <-] || discriminate; by split.
Qed.

Example stale_environment :
  get_ec2_resource ∅ "Default" demo_pipeline
  = (Raise (KeyError "EC2_SUBNET"), demo_pipeline).
Proof. vm_compute. reflexivity. Qed.

(** X17.  [get_schedule] creates the Schedule before it reads the options
    of the Default record.  When the id is unbound and one of these options
    does not resolve, the call raises KeyError with the first such key, and
    the new Schedule stays registered: the pipeline is the one it was plus
    that record. *)
Theorem get_schedule_keeps_schedule_on_error
    (env : environ) (id : string) (p : t) (k : string) :
  store_ok p ->
  _get_object p id = None ->
  first_unresolved env p ["LOG_URI"; "PIPELINE_ROLE"; "PIPELINE_RESOURCE_ROLE"]
  = Some k ->
  get_schedule env id p
  = (Raise (KeyError k), registered (new_object Schedule id [("name", VStr id)]) p).
Proof.
  intros Hok Hnone Hk. unfold get_schedule, bind at 1.
  rewrite (ensure_object_fresh id Schedule _ p Hok Hnone).
  unfold bind at 1.
  set (p1 := registered (new_object Schedule id [("name", VStr id)]) p).
  assert (Hk1 : first_unresolved env p1
                  ["LOG_URI"; "PIPELINE_ROLE"; "PIPELINE_RESOURCE_ROLE"] = Some k)
    by exact Hk.
  by rewrite (get_defaults_unresolved env p1 k Hk1).
Qed.

Lemma get_schedule_keeps_schedule_on_error_witness :
  get_schedule demo_environ "S1" env_role_pipeline
  = (Raise (KeyError "PIPELINE_ROLE"),
     registered (new_object Schedule "S1" [("name", VStr "S1")]) env_role_pipeline).
Proof.
  apply (get_schedule_keeps_schedule_on_error demo_environ "S1" env_role_pipeline
           "PIPELINE_ROLE").
  - unfold store_ok. vm_compute. repeat constructor.
  - vm_compute. reflexivity.
  - vm_compute. reflexivity.
Defined.

(** ** Constructions that fail, and LOG_URI *)

Lemma synthesize_log_uri_skipped (env : environ) (n r : string) (p : t) :
  PipelineOptions.__contains__ env (options p) "LOG_URI" = true ->
  synthesize_log_uri env n r p = (Ok tt, p).
Proof. intros H. unfold synthesize_log_uri. by rewrite H. Qed.

(** X18.  A construction that raises has registered nothing: no record was
    allocated and the registry is empty, whichever step raised. *)
Theorem failed_construction_registers_nothing
    (env : environ) (h0 : list object) (n u : string)
    (opts : PipelineOptions.t) (desc : option string) (r : string) (e : exn) :
  (__init__ env h0 n u opts desc r).1 = Raise e ->
  heap (__init__ env h0 n u opts desc r).2 = h0
  /\ collection (__init__ env h0 n u opts desc r).2 = [].
Proof.
  intros Hfail.
  set (p0 := Pipeline__init__ h0 n u desc r opts).
  destruct (synthesize_log_uri_options env n r p0) as [o Ho].
  destruct (synthesize_log_uri env n r p0) as [[[]|e1] p1] eqn:Hs;
    simpl in Ho; subst p1.
  - destruct (missing_opts env (options (with_options o p0))) as [|m ms] eqn:Hm.
    + rewrite (init_validated env h0 n u opts desc r _ Hs Hm) in Hfail. discriminate.
    + assert (Hinit : exists x, __init__ env h0 n u opts desc r
                                = (x, with_options o p0)).
      { eexists. unfold __init__, init_body, bind at 1. fold p0. rewrite Hs.
        unfold bind at 1. rewrite check_required_raise by (by rewrite Hm).
        reflexivity. }
      destruct Hinit as [x ->]. by split.
  - assert (Hinit : exists x, __init__ env h0 n u opts desc r
                              = (x, with_options o p0)).
    { eexists. unfold __init__, init_body, bind at 1. fold p0. rewrite Hs.
      reflexivity. }
    destruct Hinit as [x ->]. by split.
Qed.

Lemma failed_construction_registers_nothing_witness :
  collection
    (__init__ ∅ [] "demo" "demo-1"
       (PipelineOptions.__init__ ∅ (Some {[ "LOG_URI" := "s3://logs" ]}) None None)
       None "us-west-2").2 = [].
Proof.
  refine (proj2 (failed_construction_registers_nothing ∅ [] "demo" "demo-1"
                   (PipelineOptions.__init__ ∅ (Some {[ "LOG_URI" := "s3://logs" ]})
                      None None)
                   None "us-west-2"
                   (ValueError
                      "The following required options are not set: ['PIPELINE_ROLE', 'PIPELINE_RESOURCE_ROLE', 'EC2_AMI', 'EC2_KEYPAIR', 'EC2_SUBNET', 'EC2_SECURITY_GROUP']")
                   _)).
  vm_compute. reflexivity.
Defined.

(** X19.  When LOG_URI resolves, from the explicit table or from the
    environment, the construction leaves the resolver exactly as it
    received it: LOG_URI_TEMPLATE is not read, so a template that could not
    be formatted does no harm. *)
Theorem resolvable_log_uri_kept
    (env : environ) (h0 : list object) (n u : string)
    (opts : PipelineOptions.t) (desc : option string) (r : string) :
  PipelineOptions.__contains__ env opts "LOG_URI" = true ->
  options (__init__ env h0 n u opts desc r).2 = opts.
Proof.
  intros Hlog. unfold __init__, init_body, bind at 1.
  rewrite synthesize_log_uri_skipped by done.
  by rewrite validation_options.
Qed.

Lemma resolvable_log_uri_kept_witness :
  options
    (__init__ {[ "LOG_URI" := "s3://env" ]} [] "demo" "demo-1"
       (PipelineOptions.__init__ ∅ (Some {[ "LOG_URI_TEMPLATE" := "{oops" ]})
          None None)
       None "us-west-2").2
  = PipelineOptions.__init__ ∅ (Some {[ "LOG_URI_TEMPLATE" := "{oops" ]}) None None.
Proof.
  apply (resolvable_log_uri_kept {[ "LOG_URI" := "s3://env" ]} [] "demo" "demo-1"
           (PipelineOptions.__init__ ∅ (Some {[ "LOG_URI_TEMPLATE" := "{oops" ]})
              None None)
           None "us-west-2").
  vm_compute. reflexivity.
Defined.

(** ** A template with an unknown placeholder *)

Lemma emit_str_app (a b : string) (x : result string) :
  Py.emit_str a (Py.emit_str b x) = Py.emit_str (a ++ b) x.
Proof. destruct x; simpl; [|done]. by rewrite string_app_assoc. Qed.

Lemma format_render_then (r n : string) (ps : list piece) (rest : string)
    (num : Py.numbering) :
  forallb piece_ok ps = true ->
  Py.format_from Py.Text num (render ps ++ rest) []
    [("region", r); ("pipeline_name", n)]
  = Py.emit_str (substitute r n ps)
      (Py.format_from Py.Text num rest [] [("region", r); ("pipeline_name", n)]).
Proof.
  induction ps as [|[s| |] ps IH]; intros Hok; simpl in Hok.
  - change (render [] ++ rest) with rest.
    by destruct (Py.format_from Py.Text num rest _ _).
  - apply andb_prop in Hok as [Hs Hps]. cbn [render substitute].
    rewrite string_app_assoc, (format_literal s _ _ _ _ Hs), (IH Hps).
    apply emit_str_app.
  - cbn [render substitute].
    rewrite string_app_assoc, format_region, (IH Hok). apply emit_str_app.
  - cbn [render substitute].
    rewrite string_app_assoc, format_pipeline_name, (IH Hok). apply emit_str_app.
Qed.

Lemma format_field_scan (f acc rest : string) (num : Py.numbering)
    (args : list string) (kwargs : list (string * string)) :
  plain_chars f = true ->
  Py.format_from (Py.Field acc) num (f ++ "}" ++ rest) args kwargs
  = match Py.field_value (acc ++ f) num args kwargs with
    | Ok (v, num') => Py.emit_str v (Py.format_from Py.Text num' rest args kwargs)
    | Raise e => Raise e
    end.
Proof.
  revert acc. induction f as [|c f IH]; intros acc Hf.
  - rewrite string_app_nil_r. reflexivity.
  - cbn [plain_chars] in Hf.
    apply andb_prop in Hf as [Hc Hf]. apply andb_prop in Hc as [Hclose Hspecial].
    apply negb_true_iff in Hclose, Hspecial.
    rewrite string_app_cons. cbn [Py.format_from]. rewrite Hclose, Hspecial.
    rewrite (IH _ Hf), string_app_assoc. reflexivity.
Qed.

Lemma format_unknown_field (f rest : string) (num : Py.numbering)
    (kwargs : list (string * string)) :
  plain_name f = true ->
  Py.assoc f kwargs = None ->
  Py.format_from Py.Text num ("{" ++ f ++ "}" ++ rest) [] kwargs
  = Raise (KeyError f).
Proof.
  intros Hf Hassoc. destruct f as [|c f]; [discriminate|].
  unfold plain_name in Hf. apply andb_prop in Hf as [Hplain Hkeyword].
  destruct (Py.get_integer (String c f)) eqn:Hint; try discriminate.
  pose proof Hplain as Hscan. cbn [plain_chars] in Hplain.
  apply andb_prop in Hplain as [Hc Hrest]. apply andb_prop in Hc as [Hclose Hspecial].
  apply negb_true_iff in Hclose, Hspecial.
  assert (Hopen : Ascii.eqb c "{" = false).
  { unfold Py.field_special in Hspecial.
    by destruct (Ascii.eqb c "{"); [rewrite !orb_true_r in Hspecial|]. }
  change ("{" ++ String c f ++ "}" ++ rest)
    with (String "{" (String c (f ++ "}" ++ rest))).
  cbn [Py.format_from]. change (Ascii.eqb "{" "{") with true. cbv iota.
  rewrite Hopen, Hclose, Hspecial.
  rewrite (format_field_scan f (String c "") rest num [] kwargs Hrest).
  change (String c "" ++ f) with (String c f).
  unfold Py.field_value. by rewrite Hint, Hassoc.
Qed.

(** X20.  When LOG_URI does not resolve and LOG_URI_TEMPLATE holds, after
    text and placeholders that are in order, a placeholder whose name is
    looked up as a keyword (not empty, not read as a number) and is neither
    region nor pipeline_name, the construction raises KeyError with that
    name; nothing is written into the resolver and nothing is registered. *)
Theorem unknown_placeholder_raises
    (env : environ) (h0 : list object) (n u : string)
    (opts : PipelineOptions.t) (desc : option string) (r : string)
    (ps : list piece) (f rest : string) :
  PipelineOptions.__contains__ env opts "LOG_URI" = false ->
  PipelineOptions.__getitem__ env opts "LOG_URI_TEMPLATE"
  = Ok (render ps ++ "{" ++ f ++ "}" ++ rest) ->
  forallb piece_ok ps = true ->
  plain_name f = true ->
  f <> "region" ->
  f <> "pipeline_name" ->
  __init__ env h0 n u opts desc r
  = (Raise (KeyError f), Pipeline__init__ h0 n u desc r opts).
Proof.
  intros Hlog Htmpl Hps Hf Hr Hn.
  assert (Hassoc : Py.assoc f [("region", r); ("pipeline_name", n)] = None).
  { cbn [Py.assoc].
    destruct (String.eqb_spec f "region") as [|_]; [done|].
    by destruct (String.eqb_spec f "pipeline_name"). }
  unfold __init__, init_body, bind at 1.
  set (p0 := Pipeline__init__ h0 n u desc r opts).
  assert (Hs : synthesize_log_uri env n r p0 = (Raise (KeyError f), p0)).
  { unfold synthesize_log_uri, bind, option_value, lift. simpl options.
    unfold PipelineOptions.__contains__ at 2. rewrite Hlog, Htmpl.
    cbn [negb andb]. unfold Py.format.
    rewrite (format_render_then r n ps _ _ Hps).
    by rewrite (format_unknown_field f rest _ _ Hf Hassoc). }
  by rewrite Hs.
Qed.

Example too_many_digits :
  Py.format "{99999999999999999999x}" [] [("region", "r")]
  = Raise (ValueError "Too many decimal digits in format string")
  /\ plain_name "99999999999999999999x" = false
  /\ Py.format "{0x}" [] [("region", "r")] = Raise (KeyError "0x")
  /\ plain_name "0x" = true.
Proof. vm_compute. repeat split. Qed.

Lemma unknown_placeholder_raises_witness :
  (__init__ ∅ [] "demo" "demo-1"
     (PipelineOptions.__init__ ∅
        (Some {[ "LOG_URI_TEMPLATE" := "s3://logs/{region}/{zone}/{pipeline_name}" ]})
        None None)
     None "us-west-2").1
  = Raise (KeyError "zone").
Proof.
  refine (f_equal fst
            (unknown_placeholder_raises ∅ [] "demo" "demo-1"
               (PipelineOptions.__init__ ∅
                  (Some {[ "LOG_URI_TEMPLATE"
                             := "s3://logs/{region}/{zone}/{pipeline_name}" ]})
                  None None)
               None "us-west-2"
               [Lit "s3://logs/"; RegionPlaceholder; Lit "/"] "zone"
               "/{pipeline_name}" _ _ _ _ _ _));
    try (vm_compute; reflexivity); discriminate.
Defined.

(** * The accessors and the record they return *)

Lemma attr_of_scheduled_attr (d l x : loc) (p : t) (a : string) :
  a <> "scheduleType" -> a <> "schedule" ->
  attr_of (scheduled d l p) x a = attr_of p x a.
Proof.
  intros Ht Hs. unfold attr_of, scheduled, set_attr; simpl.
  destruct (decide (d = x)) as [->|Hne].
  - rewrite !list_lookup_alter_eq. destruct (heap p !! x) as [o|]; simpl; [|done].
    by rewrite !lookup_insert_ne.
  - by rewrite !list_lookup_alter_ne.
Qed.

Lemma heap_scheduled_other (d l x : loc) (p : t) :
  x <> d -> heap (scheduled d l p) !! x = heap p !! x.
Proof.
  intros Hne. unfold scheduled, set_attr; simpl.
  by rewrite !list_lookup_alter_ne.
Qed.

Lemma scheduled_same_but_schedule_fields (d l : loc) (p : t) :
  same_but_schedule_fields d p (scheduled d l p).
Proof.
  split; [reflexivity|]. split; [by repeat split|].
  split; [intros x; apply cls_of_scheduled|].
  split; [intros x Hx; by apply heap_scheduled_other|].
  intros a Ht Hs. by apply attr_of_scheduled_attr.
Qed.

Lemma get_object_record (p : t) (id : string) (l : loc) :
  _get_object p id = Some l -> exists o, heap p !! l = Some o /\ obj_id o = id.
Proof. intros H. by destruct (get_object_valid p id l H) as [_ ?]. Qed.

Lemma records_with_id_bound (p : t) (id : string) (l : loc) :
  _get_object p id = Some l ->
  length (records_with_id p id) <= 1 ->
  records_with_id p id = [l].
Proof.
  unfold _get_object, records_with_id.
  generalize (has_id (heap p) id) as f. intros f.
  induction (collection p) as [|x xs IH]; simpl; [discriminate|].
  destruct (f x) eqn:Hx.
  - intros [= ->] Hlen. simpl in Hlen.
    destruct (List.filter f xs); [done|simpl in Hlen; lia].
  - apply IH.
Qed.

(** The two steps of [get_schedule] in a configured pipeline. *)
Lemma get_schedule_steps (env : environ) (id : string) (p : t) :
  configured env p ->
  exists l d p1 p2,
    get_schedule env id p = (Ok l, scheduled d l p2)
    /\ _get_object p1 id = Some l
    /\ (forall l0, _get_object p id = Some l0 -> l = l0 /\ p1 = p)
    /\ (_get_object p id = None ->
        l = length (heap p)
        /\ p1 = registered (new_object Schedule id [("name", VStr id)]) p)
    /\ store_ok p1
    /\ _get_object p2 id = Some l
    /\ _get_object p2 "Default" = Some d
    /\ (forall d0, _get_object p1 "Default" = Some d0 -> d = d0 /\ p2 = p1)
    /\ (forall x o, heap p1 !! x = Some o -> heap p2 !! x = Some o)
    /\ configured env p2.
Proof.
  intros Hc. pose proof Hc as [Hok _].
  destruct (ensure_object_post id Schedule [("name", VStr id)] p Hok)
    as (l & p1 & He1 & Hg1 & Hok1 & Ho1 & _ & _ & Hb1 & Hf1 & _).
  assert (Hc1 : configured env p1) by (by apply (configured_options env p)).
  destruct (get_defaults_ensure env p1 Hc1) as [kw Hkw].
  destruct (ensure_object_post "Default" DataPipelineObject kw p1 Hok1)
    as (d & p2 & He2 & Hg2 & Hok2 & Ho2 & _ & _ & Hb2 & Hf2 & _).
  exists l, d, p1, p2. split.
  { unfold get_schedule, bind at 1. rewrite He1.
    unfold bind at 1. rewrite Hkw, He2. reflexivity. }
  split; [exact Hg1|]. split.
  { intros l0 Hl0. rewrite (ensure_object_found id _ _ p l0 Hl0) in He1.
    by injection He1 as <- <-. }
  split.
  { intros Hnone. rewrite (ensure_object_fresh id _ _ p Hok Hnone) in He1.
    by injection He1 as <- <-. }
  split; [exact Hok1|]. split; [by apply Hb2|]. split; [exact Hg2|]. split.
  { intros d0 Hd0. rewrite (ensure_object_found "Default" _ _ p1 d0 Hd0) in He2.
    by injection He2 as <- <-. }
  split; [exact Hf2|].
  apply (configured_options env p1); [done|done|done].
Qed.

(** C6.  In a configured pipeline [get_schedule S] returns a record [l] and
    leaves the Default record [d] with schedule type cron and with its
    schedule field referring to [l]; calling it again, any number of times,
    returns the same record without error and changes nothing.  The record
    returned is the one [S] is bound to afterwards: the record [S] was
    bound to before, or else a new Schedule whose name is [S].  The record
    [d] is the one the id Default is bound to afterwards, which is the one
    it was bound to before when there was one. *)
Theorem schedule_rewires_default (env : environ) (S : string) (p : t) :
  configured env p ->
  exists l d p1,
    get_schedule env S p = (Ok l, p1)
    /\ get_defaults env p1 = (Ok d, p1)
    /\ attr_of p1 d "scheduleType" = Some (VKeyword scheduleType_cron)
    /\ attr_of p1 d "schedule" = Some (VRef l)
    /\ (forall n : nat,
          Nat.iter n (fun r => get_schedule env S r.2) (get_schedule env S p)
          = (Ok l, p1))
    /\ _get_object p1 S = Some l
    /\ (exists o, heap p1 !! l = Some o /\ obj_id o = S)
    /\ _get_object p1 "Default" = Some d
    /\ (exists o, heap p1 !! d = Some o /\ obj_id o = "Default")
    /\ (forall l0, _get_object p S = Some l0 -> l = l0)
    /\ (_get_object p S = None ->
        l = length (heap p)
        /\ cls_of p1 l = Some Schedule
        /\ attr_of p1 l "name" = Some (VStr S))
    /\ (forall d0, _get_object p "Default" = Some d0 -> d = d0).
Proof.
  intros Hc.
  destruct (get_schedule_steps env S p Hc)
    as (l & d & p1 & p2 & Hs & Hl1 & Hbound & Hfresh & Hok1 & Hl & Hd & Hdef
        & Hframe & Hc2).
  exists l, d, (scheduled d l p2).
  assert (Hl3 : _get_object (scheduled d l p2) S = Some l)
    by (by rewrite get_object_scheduled).
  assert (Hd3 : _get_object (scheduled d l p2) "Default" = Some d)
    by (by rewrite get_object_scheduled).
  split; [exact Hs|]. split.
  { apply get_defaults_found; [by apply configured_scheduled|exact Hd3]. }
  destruct (get_object_valid p2 "Default" d Hd) as (_ & o & Ho & _).
  destruct (scheduled_attrs d l p2 o Ho) as [Ht Hr].
  split; [exact Ht|]. split; [exact Hr|]. split.
  { induction n as [|n IH]; simpl; [exact Hs|].
    rewrite IH. simpl. by apply get_schedule_scheduled. }
  split; [exact Hl3|]. split; [by apply get_object_record|].
  split; [exact Hd3|]. split; [by apply get_object_record|].
  split; [intros l0 Hl0; by destruct (Hbound l0 Hl0)|]. split.
  - intros Hnone. destruct (Hfresh Hnone) as [-> ->]. split; [reflexivity|].
    destruct (fresh_record S Schedule [("name", VStr S)] p (proj1 Hc) Hnone)
      as (_ & Hcls & Hattr & _ & _).
    rewrite cls_of_scheduled.
    rewrite attr_of_scheduled_attr by discriminate.
    set (p1 := registered (new_object Schedule S [("name", VStr S)]) p) in *.
    unfold cls_of, attr_of in *.
    destruct (heap p1 !! length (heap p)) as [o1|] eqn:Ho1; [|discriminate].
    rewrite (Hframe _ o1 Ho1). split; [exact Hcls|].
    rewrite Hattr. vm_compute. reflexivity.
  - intros d0 Hd0.
    assert (Hd1 : _get_object p1 "Default" = Some d0).
    { destruct (_get_object p S) as [l0|] eqn:HS.
      - by destruct (Hbound l0 eq_refl) as [_ ->].
      - destruct (Hfresh eq_refl) as [_ ->].
        rewrite get_object_registered_other; [done|apply Hc|].
        simpl. intros ->. congruence. }
    by destruct (Hdef d0 Hd1).
Qed.

Lemma schedule_rewires_default_witness :
  exists l d p1,
    get_schedule demo_environ "S1" demo_pipeline = (Ok l, p1)
    /\ attr_of p1 d "schedule" = Some (VRef l)
    /\ _get_object p1 "S1" = Some l
    /\ _get_object p1 "Default" = Some d
    /\ cls_of p1 l = Some Schedule.
Proof.
  destruct (schedule_rewires_default demo_environ "S1" demo_pipeline
              ltac:(solve_demo_configured))
    as (l & d & p1 & Hs & _ & _ & Hr & _ & Hl & _ & Hd & _ & _ & Hfresh & _).
  exists l, d, p1. split; [exact Hs|]. split; [exact Hr|]. split; [exact Hl|].
  split; [exact Hd|].
  exact (proj1 (proj2 (Hfresh ltac:(vm_compute; reflexivity)))).
Defined.

(** An accessor that, in a configured pipeline, is one call of
    [_ensure_object] for the id. *)
Lemma same_record_twice_ensure (env : environ) (call : M loc) (id : string)
    (c : cls) (p : t) :
  (forall q, configured env q -> exists kw, call q = _ensure_object id c kw q) ->
  configured env p ->
  same_record_twice call id p.
Proof.
  intros Hcall Hc. pose proof Hc as [Hok _].
  destruct (Hcall p Hc) as [kw Hkw].
  destruct (ensure_object_post id c kw p Hok)
    as (l & p1 & He & Hg & Hok1 & Ho & _ & _ & _ & _ & _).
  assert (Hc1 : configured env p1) by (by apply (configured_options env p)).
  destruct (Hcall p1 Hc1) as [kw1 Hkw1].
  exists l, p1. split; [by rewrite Hkw|]. split.
  { rewrite Hkw1. by apply ensure_object_found. }
  split; [exact Hg|]. split; [by apply get_object_record|]. split.
  { intros l0 Hl0. rewrite (ensure_object_found id _ _ p l0 Hl0) in He.
    by injection He as <- <-. }
  split.
  { intros Hnone. rewrite (ensure_object_fresh id _ _ p Hok Hnone) in He.
    by injection He as <- <-. }
  intros Huniq.
  pose proof (ids_unique_ensure id c kw p Huniq) as [_ Hu1].
  rewrite He in Hu1. simpl in Hu1.
  by apply records_with_id_bound.
Qed.

(** C8.  In a configured pipeline each of the six accessors, called twice
    with one id, succeeds both times and returns the same location (the
    same object), and the second call leaves the pipeline exactly as the
    first call left it.  After the first call the id is bound to the record
    returned, which is a record of that id.  When the id was bound before,
    that record is the one returned and the first call changes nothing
    either: no field of it is set again ([get_schedule] changes the two
    schedule fields of the Default record, and nothing else).  A record is
    appended only when the id was unbound, and in a registry without
    doubles the id then belongs to that one record. *)
Theorem accessor_twice_same_record (env : environ) (id : string) (p : t) :
  configured env p ->
  same_record_twice (get_defaults env) "Default" p
  /\ same_record_twice (get_shell_command_activity id) id p
  /\ same_record_twice (get_ec2_resource env id) id p
  /\ same_record_twice (get_sns_alarm env id) id p
  /\ same_record_twice (get_sns_failure_handler env id) id p
  /\ exists l p1,
      get_schedule env id p = (Ok l, p1)
      /\ get_schedule env id p1 = (Ok l, p1)
      /\ _get_object p1 id = Some l
      /\ (exists o, heap p1 !! l = Some o /\ obj_id o = id)
      /\ (forall l0 d,
            _get_object p id = Some l0 ->
            _get_object p "Default" = Some d ->
            l = l0 /\ p1 = scheduled d l p
            /\ same_but_schedule_fields d p p1)
      /\ (forall d,
            _get_object p id = None ->
            _get_object p "Default" = Some d ->
            l = length (heap p)
            /\ collection p1 = (collection p ++ [l])%list)
      /\ (ids_unique p -> records_with_id p1 id = [l]).
Proof.
  intros Hc.
  split. { by apply (same_record_twice_ensure env _ _ DataPipelineObject p
                       (get_defaults_ensure env)). }
  split. { apply (same_record_twice_ensure env _ _ ShellCommandActivity p);
           [intros q _; apply get_shell_command_activity_ensure|done]. }
  split. { by apply (same_record_twice_ensure env _ _ Ec2Resource p
                       (get_ec2_resource_ensure env id)). }
  split. { by apply (same_record_twice_ensure env _ _ SnsAlarm p
                       (get_sns_alarm_ensure env id)). }
  split. { by apply (same_record_twice_ensure env _ _ SnsAlarm p
                       (get_sns_failure_handler_ensure env id)). }
  destruct (get_schedule_steps env id p Hc)
    as (l & d & p1 & p2 & Hs & Hl1 & Hbound & Hfresh & Hok1 & Hl & Hd & Hdef
        & Hframe & Hc2).
  exists l, (scheduled d l p2). split; [exact Hs|]. split.
  { by apply get_schedule_scheduled. }
  assert (Hl3 : _get_object (scheduled d l p2) id = Some l)
    by (by rewrite get_object_scheduled).
  split; [exact Hl3|]. split; [by apply get_object_record|]. split.
  { intros l0 d0 Hl0 Hd0. destruct (Hbound l0 Hl0) as [-> ->].
    destruct (Hdef d0 Hd0) as [-> ->].
    split; [reflexivity|]. split; [reflexivity|].
    apply scheduled_same_but_schedule_fields. }
  split.
  { intros d0 Hnone Hd0. destruct (Hfresh Hnone) as [-> ->].
    split; [reflexivity|].
    assert (Hd1 : _get_object
                    (registered (new_object Schedule id [("name", VStr id)]) p)
                    "Default" = Some d0).
    { rewrite get_object_registered_other; [done|apply Hc|].
      simpl. intros ->. congruence. }
    destruct (Hdef d0 Hd1) as [_ ->]. reflexivity. }
  intros Huniq.
  pose proof (ids_unique_get_schedule env id p Huniq) as [_ Hu1].
  rewrite Hs in Hu1. simpl in Hu1.
  by apply records_with_id_bound.
Qed.

Lemma accessor_twice_same_record_witness :
  same_record_twice (get_ec2_resource demo_environ "Node") "Node" demo_pipeline.
Proof.
  refine (proj1 (proj2 (proj2
            (accessor_twice_same_record demo_environ "Node" demo_pipeline _)))).
  solve_demo_configured.
Defined.










Example bound_id_stale_environment :
  get_sns_alarm ∅ "Default" demo_pipeline = (Ok 0, demo_pipeline)
  /\ get_ec2_resource ∅ "Default" demo_pipeline
     = (Raise (KeyError "EC2_SUBNET"), demo_pipeline).
Proof. vm_compute. split; reflexivity. Qed.
